(** * VoiceBank AI session controller (frontend/src/App.js)

    A shallow embedding of the React component [App]: its state, the event
    handlers [sendOTP], [verifyOTP], [register], [login], [loadDashboard],
    [sendMessage], the logout handler and the speech callbacks, together
    with the event loop that interleaves user input with the settlement of
    the requests in flight. *)

From Stdlib Require Import List Bool NArith ZArith String Ascii Lia DecimalString.
Import ListNotations.
Local Open Scope list_scope.

(** ** JavaScript strings

    A JavaScript string is a sequence of UTF-16 code units. *)

Definition jsstring := list N.

(** A Basic Latin literal of the source. *)
Definition lit (s : string) : jsstring :=
  map N_of_ascii (list_ascii_of_string s).

(** Truthiness of a string: only the empty string is falsy. *)
Definition truthy (s : jsstring) : bool :=
  match s with [] => false | _ :: _ => true end.

(** ECMAScript WhiteSpace and LineTerminator code points, the ones
    [String.prototype.trim] strips: TAB, LF, VT, FF, CR, SP, NBSP, the
    other space separators (category Zs), LS, PS and the BOM. *)
Definition isWhiteSpace (c : N) : bool :=
  ((9 <=? c) && (c <=? 13)
   || (c =? 32) || (c =? 160) || (c =? 5760)
   || (8192 <=? c) && (c <=? 8202)
   || (c =? 8232) || (c =? 8233) || (c =? 8239) || (c =? 8287)
   || (c =? 12288) || (c =? 65279))%N.

Fixpoint trimStart (s : jsstring) : jsstring :=
  match s with
  | [] => []
  | c :: s' => if isWhiteSpace c then trimStart s' else s
  end.

Definition trimEnd (s : jsstring) : jsstring := rev (trimStart (rev s)).

(** [String.prototype.trim] *)
Definition trim (s : jsstring) : jsstring := trimEnd (trimStart s).

(** A message made of white space only (the empty one included). *)
Definition blank (s : jsstring) : bool := forallb isWhiteSpace s.

Fixpoint startsWith (s pat : jsstring) : bool :=
  match pat, s with
  | [], _ => true
  | _ :: _, [] => false
  | p :: pat', c :: s' => (c =? p)%N && startsWith s' pat'
  end.

(** [String.prototype.includes]: [pat] occurs in [s] at some position. *)
Fixpoint includes (s pat : jsstring) : bool :=
  startsWith s pat
  || match s with
     | [] => false
     | _ :: s' => includes s' pat
     end.

(** The restriction of [String.prototype.toLowerCase] to Basic Latin:
    A-Z go to a-z, every other code unit is kept. *)
Definition asciiLowerCase (s : jsstring) : jsstring :=
  map (fun c => if ((65 <=? c) && (c <=? 90))%N then (c + 32)%N else c) s.

(** Number to string conversion of an integer (decimal digits, a leading
    minus sign for negatives), as a template literal does it. *)
Definition showZ (z : Z) : jsstring :=
  lit (NilZero.string_of_int (Z.to_int z)).

(** ** Data model *)

Inductive Stage := Auth | VerifyOtp | Register | Login | Dashboard.

(** The user record of the register and login responses. *)
Module User.
Record t := mk {
  id : jsstring;
  name : jsstring;
  phone : jsstring;
  balance : Z
}.
End User.

(** An entry of the transaction list. *)
Module Txn.
Record t := mk {
  id : jsstring;
  type : jsstring;
  amount : Z;
  description : jsstring;
  timestamp : jsstring
}.
End Txn.

Inductive Role := RoleUser | RoleAssistant.

Record ChatMessage := { role : Role; content : jsstring }.

(** The [useState] cells of [App]. *)
Record Session := {
  stage : Stage;
  phone : jsstring;
  otp : jsstring;
  pin : jsstring;
  name : jsstring;
  user : option User.t;
  isListening : bool;
  transcript : jsstring;
  messages : list ChatMessage;
  inputMessage : jsstring;
  balance : Z;
  transactions : list Txn.t;
  sessionId : jsstring
}.

(** What the browser and the build supply: the environment variable
    [REACT_APP_BACKEND_URL], the clock read once by [Date.now()], the
    engine's [String.prototype.toLowerCase] (its Unicode case tables are
    not fixed here; [asciiLowerCase] is its Basic Latin part), and whether
    [window.speechSynthesis] and [window.webkitSpeechRecognition] exist. *)
Record Host := {
  BACKEND_URL : jsstring;
  Date_now : Z;
  toLowerCase : jsstring -> jsstring;
  speechSynthesis : bool;
  webkitSpeechRecognition : bool
}.

(** An [axios] call: the URL and, for a POST, the fields of the JSON body. *)
Inductive Request :=
| Post (url : jsstring) (body : list (string * jsstring))
| Get (url : jsstring).

Definition field (key : string) (value : jsstring) : string * jsstring :=
  (key, value).

(** What a handler does to the outside world. *)
Inductive Effect :=
| Http (r : Request)
| ToastSuccess (text : jsstring)
| ToastError (text : jsstring)
| ConsoleLog (text : jsstring)
| ConsoleError (text : jsstring)
| SynthCancel
| SynthSpeak (text : jsstring)
| RecognitionStart
| RecognitionStop.

(** An [async] handler suspended at its [await], with the values its
    closure captured from the render in which it was started. *)
Inductive Pending :=
| AwaitSendOtp
| AwaitVerifyOtp
| AwaitRegister
| AwaitLogin
| AwaitTransactions
| AwaitChat (sent : jsstring) (sender : User.t).

(** How an awaited request settles. *)
Inductive Outcome (A : Type) :=
| Resolved (data : A)
| Rejected.
Arguments Resolved {A} data.
Arguments Rejected {A}.

Record VerifyOtpData := { success : bool; user_exists : bool }.
Record ChatData := { response : jsstring; user_balance : Z }.

(** The component with its surroundings: the state cells, the handlers
    suspended on a request, and the effects performed so far, oldest
    first. *)
Record World := {
  host : Host;
  session : Session;
  inflight : list Pending;
  effects : list Effect
}.

(** ** Actions: state passing *)

Definition Action := World -> World.

Definition skip : Action := fun w => w.

Definition seq (a b : Action) : Action := fun w => b (a w).

Declare Scope action_scope.
Delimit Scope action_scope with act.
Bind Scope action_scope with Action.
Notation "a ;; b" := (seq a b) (at level 61, right associativity) : action_scope.
Local Open Scope action_scope.

Definition update (f : Session -> Session) : Action := fun w =>
  {| host := host w; session := f (session w);
     inflight := inflight w; effects := effects w |}.

Definition emit (e : Effect) : Action := fun w =>
  {| host := host w; session := session w;
     inflight := inflight w; effects := effects w ++ [e] |}.

Definition suspend (p : Pending) : Action := fun w =>
  {| host := host w; session := session w;
     inflight := inflight w ++ [p]; effects := effects w |}.

(** Issue a request and suspend the handler until it settles. *)
Definition await (r : Request) (p : Pending) : Action :=
  emit (Http r) ;; suspend p.

Definition setStage (v : Stage) : Action := update (fun s =>
  {| stage := v; phone := phone s; otp := otp s; pin := pin s; name := name s;
     user := user s; isListening := isListening s; transcript := transcript s;
     messages := messages s; inputMessage := inputMessage s;
     balance := balance s; transactions := transactions s;
     sessionId := sessionId s |}).

Definition setPhone (v : jsstring) : Action := update (fun s =>
  {| stage := stage s; phone := v; otp := otp s; pin := pin s; name := name s;
     user := user s; isListening := isListening s; transcript := transcript s;
     messages := messages s; inputMessage := inputMessage s;
     balance := balance s; transactions := transactions s;
     sessionId := sessionId s |}).

Definition setOtp (v : jsstring) : Action := update (fun s =>
  {| stage := stage s; phone := phone s; otp := v; pin := pin s; name := name s;
     user := user s; isListening := isListening s; transcript := transcript s;
     messages := messages s; inputMessage := inputMessage s;
     balance := balance s; transactions := transactions s;
     sessionId := sessionId s |}).

Definition setPin (v : jsstring) : Action := update (fun s =>
  {| stage := stage s; phone := phone s; otp := otp s; pin := v; name := name s;
     user := user s; isListening := isListening s; transcript := transcript s;
     messages := messages s; inputMessage := inputMessage s;
     balance := balance s; transactions := transactions s;
     sessionId := sessionId s |}).

Definition setName (v : jsstring) : Action := update (fun s =>
  {| stage := stage s; phone := phone s; otp := otp s; pin := pin s; name := v;
     user := user s; isListening := isListening s; transcript := transcript s;
     messages := messages s; inputMessage := inputMessage s;
     balance := balance s; transactions := transactions s;
     sessionId := sessionId s |}).

Definition setUser (v : option User.t) : Action := update (fun s =>
  {| stage := stage s; phone := phone s; otp := otp s; pin := pin s;
     name := name s; user := v; isListening := isListening s;
     transcript := transcript s; messages := messages s;
     inputMessage := inputMessage s; balance := balance s;
     transactions := transactions s; sessionId := sessionId s |}).

Definition setIsListening (v : bool) : Action := update (fun s =>
  {| stage := stage s; phone := phone s; otp := otp s; pin := pin s;
     name := name s; user := user s; isListening := v;
     transcript := transcript s; messages := messages s;
     inputMessage := inputMessage s; balance := balance s;
     transactions := transactions s; sessionId := sessionId s |}).

Definition setTranscript (v : jsstring) : Action := update (fun s =>
  {| stage := stage s; phone := phone s; otp := otp s; pin := pin s;
     name := name s; user := user s; isListening := isListening s;
     transcript := v; messages := messages s;
     inputMessage := inputMessage s; balance := balance s;
     transactions := transactions s; sessionId := sessionId s |}).

(** [setMessages] called with an updater, [setMessages(prev => ...)]: the
    updater is applied to the log as it is when the update runs. *)
Definition setMessagesWith (f : list ChatMessage -> list ChatMessage) : Action :=
  update (fun s =>
  {| stage := stage s; phone := phone s; otp := otp s; pin := pin s;
     name := name s; user := user s; isListening := isListening s;
     transcript := transcript s; messages := f (messages s);
     inputMessage := inputMessage s; balance := balance s;
     transactions := transactions s; sessionId := sessionId s |}).

Definition setInputMessage (v : jsstring) : Action := update (fun s =>
  {| stage := stage s; phone := phone s; otp := otp s; pin := pin s;
     name := name s; user := user s; isListening := isListening s;
     transcript := transcript s; messages := messages s;
     inputMessage := v; balance := balance s;
     transactions := transactions s; sessionId := sessionId s |}).

Definition setBalance (v : Z) : Action := update (fun s =>
  {| stage := stage s; phone := phone s; otp := otp s; pin := pin s;
     name := name s; user := user s; isListening := isListening s;
     transcript := transcript s; messages := messages s;
     inputMessage := inputMessage s; balance := v;
     transactions := transactions s; sessionId := sessionId s |}).

Definition setTransactions (v : list Txn.t) : Action := update (fun s =>
  {| stage := stage s; phone := phone s; otp := otp s; pin := pin s;
     name := name s; user := user s; isListening := isListening s;
     transcript := transcript s; messages := messages s;
     inputMessage := inputMessage s; balance := balance s;
     transactions := v; sessionId := sessionId s |}).

(** ** The handlers of [App] *)

Definition API (h : Host) : jsstring := BACKEND_URL h ++ lit "/api".

(** The state of the first render. *)
Definition initial (h : Host) : Session :=
  {| stage := Auth; phone := []; otp := []; pin := []; name := [];
     user := None; isListening := false; transcript := []; messages := [];
     inputMessage := []; balance := 0%Z; transactions := [];
     sessionId := lit "session_" ++ showZ (Date_now h) |}.

Definition boot (h : Host) : World :=
  {| host := h; session := initial h; inflight := []; effects := [] |}.

(** [speak]: nothing without a synthesizer; otherwise the utterance in
    progress is cancelled before the new one starts. *)
Definition speak (text : jsstring) : Action := fun w =>
  if speechSynthesis (host w)
  then (emit SynthCancel ;; emit (SynthSpeak text)) w
  else w.

(** [recognitionRef.current?.start()] and [?.stop()]: the reference is set
    only where the browser has a recognizer. *)
Definition recognition (op : Effect) : Action := fun w =>
  if webkitSpeechRecognition (host w) then emit op w else w.

Definition toggleListening : Action := fun w =>
  if isListening (session w)
  then (recognition RecognitionStop ;; setIsListening false) w
  else (recognition RecognitionStart ;; setIsListening true) w.

(** An entry of [event.results]: [isFinal] and the transcript of its first
    alternative. *)
Record SpeechResult := { isFinal : bool; transcript0 : jsstring }.

(** The loop of [recognition.onresult] from [event.resultIndex] on. *)
Definition finalTranscript (resultIndex : nat) (results : list SpeechResult)
  : jsstring :=
  fold_left (fun acc r => if isFinal r then acc ++ transcript0 r else acc)
            (skipn resultIndex results) [].

Definition onresult (resultIndex : nat) (results : list SpeechResult) : Action :=
  let final := finalTranscript resultIndex results in
  if truthy final
  then setTranscript final ;; setInputMessage final
  else skip.

Definition onerror : Action :=
  emit (ConsoleError (lit "Speech recognition error:")) ;; setIsListening false.

Definition onend : Action := setIsListening false.

(** [sendOTP] up to its [await], and its continuation. *)
Definition sendOTP : Action := fun w =>
  await (Post (API (host w) ++ lit "/auth/send-otp")
              [field "phone" (phone (session w))])
        AwaitSendOtp w.

Definition sendOTP_settled (r : Outcome jsstring) : Action :=
  match r with
  | Resolved mock_otp =>
      emit (ToastSuccess (lit "OTP sent: " ++ mock_otp)) ;;
      setStage VerifyOtp
  | Rejected =>
      emit (ToastError (lit "Failed to send OTP"))
  end.

Definition verifyOTP : Action := fun w =>
  await (Post (API (host w) ++ lit "/auth/verify-otp")
              [field "phone" (phone (session w)); field "otp" (otp (session w))])
        AwaitVerifyOtp w.

Definition verifyOTP_settled (r : Outcome VerifyOtpData) : Action :=
  match r with
  | Resolved d =>
      emit (ConsoleLog (lit "OTP Verify Response:")) ;;
      if success d then
        emit (ToastSuccess (lit "OTP verified!")) ;;
        if user_exists d then setStage Login else setStage Register
      else
        emit (ToastError (lit "Invalid OTP"))
  | Rejected =>
      emit (ConsoleError (lit "OTP verification error:")) ;;
      emit (ToastError (lit "Invalid OTP"))
  end.

(** [loadDashboard] is called without being awaited: its request joins
    the ones in flight and the caller goes on. *)
Definition loadDashboard (userId : jsstring) : Action := fun w =>
  await (Get (API (host w) ++ lit "/user/" ++ userId
                ++ lit "/transactions?limit=5"))
        AwaitTransactions w.

Definition loadDashboard_settled (r : Outcome (list Txn.t)) : Action :=
  match r with
  | Resolved txns => setTransactions txns
  | Rejected => emit (ConsoleError (lit "Failed to load transactions"))
  end.

Definition register : Action := fun w =>
  await (Post (API (host w) ++ lit "/auth/register")
              [field "phone" (phone (session w)); field "name" (name (session w));
               field "pin" (pin (session w))])
        AwaitRegister w.

Definition register_settled (r : Outcome User.t) : Action :=
  match r with
  | Resolved u =>
      setUser (Some u) ;;
      setBalance (User.balance u) ;;
      setStage Dashboard ;;
      emit (ToastSuccess (lit "Account created successfully!")) ;;
      speak (lit "Welcome to VoiceBank AI. Your account has been created successfully.") ;;
      loadDashboard (User.id u)
  | Rejected =>
      emit (ToastError (lit "Registration failed"))
  end.

Definition login : Action := fun w =>
  await (Post (API (host w) ++ lit "/auth/login")
              [field "phone" (phone (session w)); field "pin" (pin (session w))])
        AwaitLogin w.

Definition login_settled (r : Outcome User.t) : Action :=
  match r with
  | Resolved u =>
      setUser (Some u) ;;
      setBalance (User.balance u) ;;
      setStage Dashboard ;;
      emit (ToastSuccess (lit "Login successful!")) ;;
      speak (lit "Welcome back " ++ User.name u
             ++ lit ". Your current balance is " ++ showZ (User.balance u)
             ++ lit " rupees.") ;;
      loadDashboard (User.id u)
  | Rejected =>
      emit (ToastError (lit "Invalid credentials"))
  end.

Definition userMsg (text : jsstring) : ChatMessage :=
  {| role := RoleUser; content := text |}.

Definition aiMsg (text : jsstring) : ChatMessage :=
  {| role := RoleAssistant; content := text |}.

Definition errorMsg : ChatMessage :=
  aiMsg (lit "Sorry, I encountered an error. Please try again.").

(** The [catch] block of [sendMessage]. *)
Definition sendMessage_catch : Action :=
  emit (ToastError (lit "Failed to send message")) ;;
  setMessagesWith (fun prev => prev ++ [errorMsg]).

(** The test that decides the refresh of the transaction list. *)
Definition mentionsTransfers (h : Host) (text : jsstring) : bool :=
  includes (toLowerCase h text) (lit "transaction")
  || includes (toLowerCase h text) (lit "transfer").

(** [sendMessage] up to its [await].  With no user, reading [user.id] for
    the request body throws inside the [try] block, so the [catch] block
    runs at once and no request is made. *)
Definition sendMessage : Action := fun w =>
  let s := session w in
  if negb (truthy (trim (inputMessage s))) then w
  else
    (setMessagesWith (fun prev => prev ++ [userMsg (inputMessage s)]) ;;
     setInputMessage [] ;;
     setTranscript [] ;;
     match user s with
     | Some u =>
         await (Post (API (host w) ++ lit "/chat")
                     [field "message" (inputMessage s); field "user_id" (User.id u);
                      field "session_id" (sessionId s)])
               (AwaitChat (inputMessage s) u)
     | None => sendMessage_catch
     end) w.

(** The rest of [sendMessage]: [sent] and [sender] are the [inputMessage]
    and [user] of the render in which the message was sent. *)
Definition sendMessage_settled (sent : jsstring) (sender : User.t)
    (r : Outcome ChatData) : Action :=
  match r with
  | Resolved d =>
      setMessagesWith (fun prev => prev ++ [aiMsg (response d)]) ;;
      setBalance (user_balance d) ;;
      speak (response d) ;;
      (fun w => if mentionsTransfers (host w) sent
                then loadDashboard (User.id sender) w
                else w)
  | Rejected => sendMessage_catch
  end.

(** The [onClick] of the logout button. *)
Definition logout : Action :=
  setStage Auth ;; setUser None ;; setMessagesWith (fun _ => []).

(** ** What is rendered, and the event loop *)

(** The inputs and buttons of the page, by their [data-testid]. *)
Inductive Input :=
| PhoneInput | OtpInput | NameInput | PinInput | LoginPinInput | ChatInput.

Inductive Button :=
| SendOtpBtn | VerifyOtpBtn | RegisterBtn | LoginBtn
| LogoutBtn | MicBtn | SendBtn.

Definition Stage_eqb (a b : Stage) : bool :=
  match a, b with
  | Auth, Auth | VerifyOtp, VerifyOtp | Register, Register
  | Login, Login | Dashboard, Dashboard => true
  | _, _ => false
  end.

(** [renderAuth] and [renderDashboard]: the stage in which a control is
    on the page. *)
Definition inputStage (i : Input) : Stage :=
  match i with
  | PhoneInput => Auth
  | OtpInput => VerifyOtp
  | NameInput | PinInput => Register
  | LoginPinInput => Login
  | ChatInput => Dashboard
  end.

Definition buttonStage (b : Button) : Stage :=
  match b with
  | SendOtpBtn => Auth
  | VerifyOtpBtn => VerifyOtp
  | RegisterBtn => Register
  | LoginBtn => Login
  | LogoutBtn | MicBtn | SendBtn => Dashboard
  end.

(** The [maxLength] attribute, in code units. *)
Definition maxLength (i : Input) : option nat :=
  match i with
  | OtpInput => Some 6
  | PinInput | LoginPinInput => Some 4
  | PhoneInput | NameInput | ChatInput => None
  end.

Definition fits (i : Input) (v : jsstring) : bool :=
  match maxLength i with
  | Some n => Nat.leb (List.length v) n
  | None => true
  end.

Definition onChange (i : Input) (v : jsstring) : Action :=
  match i with
  | PhoneInput => setPhone v
  | OtpInput => setOtp v
  | NameInput => setName v
  | PinInput | LoginPinInput => setPin v
  | ChatInput => setInputMessage v
  end.

Definition onClick (b : Button) : Action :=
  match b with
  | SendOtpBtn => sendOTP
  | VerifyOtpBtn => verifyOTP
  | RegisterBtn => register
  | LoginBtn => login
  | LogoutBtn => logout
  | MicBtn => toggleListening
  | SendBtn => sendMessage
  end.

(** What the backend answers to a request in flight: a rejection, or a
    response with the fields the awaiting handler reads. *)
Inductive Reply :=
| ReplyRejected
| ReplySendOtp (mock_otp : jsstring)
| ReplyVerifyOtp (d : VerifyOtpData)
| ReplyUser (u : User.t)
| ReplyTransactions (txns : list Txn.t)
| ReplyChat (d : ChatData).

(** The continuation a reply wakes up; a reply of another endpoint's
    shape is not an answer to this request. *)
Definition resume (p : Pending) (r : Reply) : option Action :=
  match p, r with
  | AwaitSendOtp, ReplyRejected => Some (sendOTP_settled Rejected)
  | AwaitSendOtp, ReplySendOtp m => Some (sendOTP_settled (Resolved m))
  | AwaitVerifyOtp, ReplyRejected => Some (verifyOTP_settled Rejected)
  | AwaitVerifyOtp, ReplyVerifyOtp d => Some (verifyOTP_settled (Resolved d))
  | AwaitRegister, ReplyRejected => Some (register_settled Rejected)
  | AwaitRegister, ReplyUser u => Some (register_settled (Resolved u))
  | AwaitLogin, ReplyRejected => Some (login_settled Rejected)
  | AwaitLogin, ReplyUser u => Some (login_settled (Resolved u))
  | AwaitTransactions, ReplyRejected => Some (loadDashboard_settled Rejected)
  | AwaitTransactions, ReplyTransactions l =>
      Some (loadDashboard_settled (Resolved l))
  | AwaitChat m u, ReplyRejected => Some (sendMessage_settled m u Rejected)
  | AwaitChat m u, ReplyChat d => Some (sendMessage_settled m u (Resolved d))
  | _, _ => None
  end.

Definition removeAt {A : Type} (i : nat) (l : list A) : list A :=
  firstn i l ++ skipn (S i) l.

Definition dequeue (i : nat) : Action := fun w =>
  {| host := host w; session := session w;
     inflight := removeAt i (inflight w); effects := effects w |}.

(** The events of the browser: input in a rendered control, the Enter key
    in the chat input, the callbacks of the recognizer, and the settlement
    of the [i]-th request in flight.  Requests settle in any order. *)
Inductive Event :=
| Change (i : Input) (v : jsstring)
| Click (b : Button)
| PressEnter
| Recognised (resultIndex : nat) (results : list SpeechResult)
| RecognitionError
| RecognitionEnd
| Settle (i : nat) (r : Reply).

(** One turn of the event loop; [None] when the event cannot occur (the
    control is not rendered, there is no such request in flight). *)
Definition step (e : Event) (w : World) : option World :=
  match e with
  | Change i v =>
      if Stage_eqb (stage (session w)) (inputStage i) && fits i v
      then Some (onChange i v w) else None
  | Click b =>
      if Stage_eqb (stage (session w)) (buttonStage b)
      then Some (onClick b w) else None
  | PressEnter =>
      if Stage_eqb (stage (session w)) Dashboard
      then Some (sendMessage w) else None
  | Recognised i rs =>
      if webkitSpeechRecognition (host w)
      then Some (onresult i rs w) else None
  | RecognitionError =>
      if webkitSpeechRecognition (host w) then Some (onerror w) else None
  | RecognitionEnd =>
      if webkitSpeechRecognition (host w) then Some (onend w) else None
  | Settle i r =>
      match nth_error (inflight w) i with
      | Some p =>
          match resume p r with
          | Some k => Some (k (dequeue i w))
          | None => None
          end
      | None => None
      end
  end.

Fixpoint run (evs : list Event) (w : World) : option World :=
  match evs with
  | [] => Some w
  | e :: evs' =>
      match step e w with
      | Some w' => run evs' w'
      | None => None
      end
  end.

(** A state the page can be in. *)
Definition reachable (w : World) : Prop :=
  exists h evs, run evs (boot h) = Some w.

(** *** One authentication request at a time *)

Definition authRequest (p : Pending) : bool :=
  match p with
  | AwaitSendOtp | AwaitVerifyOtp | AwaitRegister | AwaitLogin => true
  | AwaitTransactions | AwaitChat _ _ => false
  end.

Definition startsAuthRequest (e : Event) : bool :=
  match e with
  | Click SendOtpBtn | Click VerifyOtpBtn
  | Click RegisterBtn | Click LoginBtn => true
  | _ => false
  end.

Definition authIdle (w : World) : bool :=
  forallb (fun p => negb (authRequest p)) (inflight w).

(** A run in which [sendOTP], [verifyOTP], [register] and [login] are only
    started once the previous one of them has settled. *)
Fixpoint serial (evs : list Event) (w : World) : bool :=
  match evs with
  | [] => true
  | e :: evs' =>
      (negb (startsAuthRequest e) || authIdle w)
      && match step e w with
         | Some w' => serial evs' w'
         | None => true
         end
  end.

(** ** A host and the data of the examples *)

Definition demoHost : Host :=
  {| BACKEND_URL := lit "http://localhost:8001";
     Date_now := 1700000000000%Z;
     toLowerCase := asciiLowerCase;
     speechSynthesis := true;
     webkitSpeechRecognition := true |}.

Definition asha : User.t :=
  User.mk (lit "u1") (lit "Asha") (lit "9876543210") 5000%Z.

Definition rupee : jsstring := [8377%N].

(** ** Notions used in the statements *)

(** The effects performed on the way from [w] to [w']. *)
Definition since (w w' : World) : list Effect :=
  skipn (List.length (effects w)) (effects w').

(** [pat] occurs in [s]. *)
Definition contains (s pat : jsstring) : Prop :=
  exists pre post, s = pre ++ pat ++ post.

Fixpoint countRole (r : Role) (l : list ChatMessage) : nat :=
  match l with
  | [] => 0
  | m :: l' =>
      (match r, role m with
       | RoleUser, RoleUser | RoleAssistant, RoleAssistant => 1
       | _, _ => 0
       end + countRole r l')%nat
  end.

Definition isToast (e : Effect) : bool :=
  match e with
  | ToastSuccess _ | ToastError _ => true
  | _ => false
  end.

(** The number of authentication requests among the ones in flight. *)
Definition authCount (l : list Pending) : nat :=
  List.length (filter authRequest l).

(** With a user the page shows the dashboard. *)
Definition dashboardHasUser (w : World) : Prop :=
  stage (session w) = Dashboard -> user (session w) <> None.

(** What holds along a [serial] run. *)
Definition serialInv (w : World) : Prop :=
  (user (session w) <> None <-> stage (session w) = Dashboard)
  /\ (authCount (inflight w) <= 1)%nat
  /\ (authCount (inflight w) = 1%nat -> stage (session w) <> Dashboard).

(** The walk of a new customer through the page: phone, OTP, name and
    PIN, each request answered before the next control is used. *)
Definition enrolment : list Event :=
  [ Change PhoneInput (lit "9876543210");
    Click SendOtpBtn;
    Settle 0 (ReplySendOtp (lit "123456"));
    Change OtpInput (lit "123456");
    Click VerifyOtpBtn;
    Settle 0 (ReplyVerifyOtp {| success := true; user_exists := false |});
    Change NameInput (lit "Asha");
    Change PinInput (lit "1234");
    Click RegisterBtn;
    Settle 0 (ReplyUser asha) ].

(** The dashboard that walk ends in. *)
Definition signedIn : World :=
  match run enrolment (boot demoHost) with
  | Some w => w
  | None => boot demoHost
  end.

(** The send-OTP button pressed twice; the answer to the second press
    arrives only after the customer has logged in. *)
Definition staleOtp : list Event :=
  [ Click SendOtpBtn;
    Click SendOtpBtn;
    Settle 0 (ReplySendOtp (lit "123456"));
    Click VerifyOtpBtn;
    Settle 1 (ReplyVerifyOtp {| success := true; user_exists := true |});
    Click LoginBtn;
    Settle 1 (ReplyUser asha);
    Settle 0 (ReplySendOtp (lit "654321")) ].

(** The page waiting for the OTP of an unknown number. *)
Definition otpRequested : World :=
  sendOTP_settled (Resolved (lit "123456"))
    (dequeue 0 (sendOTP (onChange PhoneInput (lit "9876543210")
                           (boot demoHost)))).

Definition newCustomer : VerifyOtpData :=
  {| success := true; user_exists := false |}.

Definition wrongOtp : VerifyOtpData :=
  {| success := false; user_exists := true |}.

(** The dashboard with something typed in the chat input. *)
Definition typedSpace : World := onChange ChatInput (lit " ") signedIn.

Definition typedBlanks : World := onChange ChatInput (lit "   ") signedIn.

Definition typedTransfers : World :=
  onChange ChatInput (lit "Show my transfers") signedIn.

Definition typedBalance : World :=
  onChange ChatInput (lit "What is my balance?") signedIn.

Definition balanceReply : ChatData :=
  {| response := lit "Your balance is " ++ rupee ++ lit "5000";
     user_balance := 5000 |}.

(** The dashboard with a second request for the transactions in flight. *)
Definition refreshing : World := loadDashboard (User.id asha) signedIn.

(** The phone input left empty. *)
Definition emptyPhone : list Event :=
  [ Click SendOtpBtn; Settle 0 (ReplySendOtp (lit "123456")) ].

(** ** The transaction rows of [renderDashboard] *)

(** [===] on strings. *)
Fixpoint strictEq (a b : jsstring) : bool :=
  match a, b with
  | [], [] => true
  | x :: a', y :: b' => (x =? y)%N && strictEq a' b'
  | _, _ => false
  end.

Inductive Icon := ArrowUpRight | ArrowDownLeft.

(** The arrow of a row and the sign in front of its amount: two tests of
    [txn.type === 'transfer_out']. *)
Definition txnIcon (t : Txn.t) : Icon :=
  if strictEq (Txn.type t) (lit "transfer_out")
  then ArrowUpRight else ArrowDownLeft.

Definition txnSign (t : Txn.t) : jsstring :=
  if strictEq (Txn.type t) (lit "transfer_out") then lit "-" else lit "+".

(** ** Notions on runs *)

Definition isHttp (e : Effect) : bool :=
  match e with Http _ => true | _ => false end.

(** The number of requests issued so far. *)
Definition issued (es : list Effect) : nat :=
  List.length (filter isHttp es).

Definition isSettle (e : Event) : bool :=
  match e with Settle _ _ => true | _ => false end.

(** The number of requests answered in a run. *)
Definition answered (evs : list Event) : nat :=
  List.length (filter isSettle evs).

(** Every utterance is started right after a cancellation. *)
Definition cancelsBeforeSpeaking (es : list Effect) : Prop :=
  forall pre text post,
    es = pre ++ SynthSpeak text :: post ->
    exists pre', pre = pre' ++ [SynthCancel].

(** The stage whose form starts an authentication request. *)
Definition origin (p : Pending) : option Stage :=
  match p with
  | AwaitSendOtp => Some Auth
  | AwaitVerifyOtp => Some VerifyOtp
  | AwaitRegister => Some Register
  | AwaitLogin => Some Login
  | AwaitTransactions | AwaitChat _ _ => None
  end.

(** The authentication requests in flight were started at stage [st]. *)
Definition waitsAt (st : Stage) (l : list Pending) : bool :=
  forallb (fun p => match origin p with
                    | Some s => Stage_eqb st s
                    | None => true
                    end) l.

(** The arrows of the stage diagram. *)
Definition follows (a b : Stage) : bool :=
  match a, b with
  | Auth, VerifyOtp
  | VerifyOtp, Login | VerifyOtp, Register
  | Register, Dashboard | Login, Dashboard
  | Dashboard, Auth => true
  | _, _ => false
  end.


(** ** More data for the examples *)

(** A recognition event: one interim segment between two final ones. *)
Definition heard : list SpeechResult :=
  [ {| isFinal := true; transcript0 := lit "Show my " |};
    {| isFinal := false; transcript0 := lit "trans" |};
    {| isFinal := true; transcript0 := lit "transfers" |} ].

Definition murmur : list SpeechResult :=
  [ {| isFinal := false; transcript0 := lit "Show" |};
    {| isFinal := false; transcript0 := lit "Show my" |} ].

Definition rent : Txn.t :=
  Txn.mk (lit "t1") (lit "transfer_out") 1200%Z (lit "Rent")
         (lit "2024-01-05T10:00:00Z").

Definition salary : Txn.t :=
  Txn.mk (lit "t2") (lit "transfer_in") 50000%Z (lit "Salary")
         (lit "2024-01-01T09:00:00Z").
(** *** Facts on the string primitives *)

Lemma trimStart_nil_iff (s : jsstring) :
  trimStart s = [] <-> blank s = true.
Proof.
  unfold blank.
  induction s as [|c s IH]; simpl.
  - tauto.
  - destruct (isWhiteSpace c); simpl.
    + exact IH.
    + split; discriminate.
Qed.

Lemma trim_nil_iff (s : jsstring) :
  trim s = [] <-> blank s = true.
Proof.
  unfold trim, trimEnd.
  split.
  - intros H.
    apply (f_equal (@rev N)) in H.
    rewrite rev_involutive in H. simpl in H.
    apply trimStart_nil_iff in H.
    unfold blank in H. rewrite forallb_forall in H.
    apply trimStart_nil_iff.
    destruct (trimStart s) as [|c t] eqn:E; [reflexivity|].
    exfalso.
    assert (Hc : isWhiteSpace c = true).
    { apply H. apply in_rev. rewrite rev_involutive. now left. }
    clear H. revert c t E Hc.
    induction s as [|d s IH]; simpl; intros c t E Hc; [discriminate|].
    destruct (isWhiteSpace d) eqn:Ed.
    + eapply IH; eassumption.
    + injection E as -> _. congruence.
  - intros H. apply trimStart_nil_iff in H. now rewrite H.
Qed.

Lemma truthy_trim (s : jsstring) :
  truthy (trim s) = negb (blank s).
Proof.
  destruct (blank s) eqn:B.
  - apply trim_nil_iff in B. now rewrite B.
  - destruct (trim s) eqn:T; [|reflexivity].
    apply trim_nil_iff in T. congruence.
Qed.

Lemma startsWith_app (s pat : jsstring) :
  startsWith s pat = true <-> exists post, s = pat ++ post.
Proof.
  revert s.
  induction pat as [|p pat IH]; intros s.
  - destruct s; simpl; split; eauto.
  - destruct s as [|c s]; cbn [startsWith].
    + split; [discriminate | intros [post H]; discriminate].
    + rewrite andb_true_iff, N.eqb_eq, IH.
      split.
      * intros [-> [post ->]]. now exists post.
      * intros [post H]. injection H as -> ->. eauto.
Qed.

(** [includes] decides the occurrence of a substring. *)
Lemma includes_spec (s pat : jsstring) :
  includes s pat = true <-> exists pre post, s = pre ++ pat ++ post.
Proof.
  induction s as [|c s IH].
  - cbn [includes]. rewrite orb_false_r, startsWith_app.
    split.
    + intros [post H]. now exists [], post.
    + intros [pre [post H]].
      destruct pre; [now exists post|discriminate].
  - cbn [includes]. rewrite orb_true_iff, startsWith_app, IH.
    split.
    + intros [[post H] | [pre [post H]]].
      * now exists [], post.
      * exists (c :: pre), post. now rewrite H.
    + intros [pre [post H]].
      destruct pre as [|d pre].
      * left. now exists post.
      * right. injection H as _ H. now exists pre, post.
Qed.


(** ** Facts on the notions of the statements *)

Lemma since_app (w w' : World) (es : list Effect) :
  effects w' = effects w ++ es -> since w w' = es.
Proof.
  unfold since. intros ->.
  rewrite skipn_app, skipn_all, Nat.sub_diag. reflexivity.
Qed.

Lemma countRole_app (r : Role) (l1 l2 : list ChatMessage) :
  countRole r (l1 ++ l2) = (countRole r l1 + countRole r l2)%nat.
Proof.
  induction l1 as [|m l1 IH]; simpl; [reflexivity|].
  rewrite IH. lia.
Qed.

Lemma blank_Forall (s : jsstring) :
  blank s = true <-> Forall (fun c => isWhiteSpace c = true) s.
Proof.
  unfold blank. rewrite forallb_forall, Forall_forall. reflexivity.
Qed.

Lemma mentionsTransfers_spec (h : Host) (text : jsstring) :
  mentionsTransfers h text = true <->
  contains (toLowerCase h text) (lit "transaction")
  \/ contains (toLowerCase h text) (lit "transfer").
Proof.
  unfold mentionsTransfers, contains.
  rewrite orb_true_iff, !includes_spec. reflexivity.
Qed.

(** Unfolding of the handlers down to the record operations.  Run on a
    world given by its components: every projection then computes. *)
Ltac crush :=
  lazy beta iota zeta delta
    [logout sendMessage_settled sendMessage sendMessage_catch
     login_settled login register_settled register
     loadDashboard_settled loadDashboard verifyOTP_settled verifyOTP
     sendOTP_settled sendOTP onend onerror onresult toggleListening
     recognition speak dequeue
     setStage setPhone setOtp setPin setName setUser
     setIsListening setTranscript setMessagesWith setInputMessage
     setBalance setTransactions await suspend emit update seq skip
     host session inflight effects
     stage phone otp pin name user isListening transcript messages
     inputMessage balance transactions sessionId] in *.

Ltac open_world w :=
  let h := fresh "h" in
  let q := fresh "q" in
  let es := fresh "es" in
  destruct w as [h [] q es].

(** ** Invariants of the event loop *)

Lemma Stage_eqb_eq (a b : Stage) : Stage_eqb a b = true <-> a = b.
Proof. destruct a, b; simpl; split; congruence. Qed.

Lemma authCount_app (l1 l2 : list Pending) :
  authCount (l1 ++ l2) = (authCount l1 + authCount l2)%nat.
Proof. unfold authCount. now rewrite filter_app, length_app. Qed.

Lemma authCount_removeAt (i : nat) (l : list Pending) (p : Pending) :
  nth_error l i = Some p ->
  authCount l
  = ((if authRequest p then 1 else 0) + authCount (removeAt i l))%nat.
Proof.
  unfold removeAt. revert i.
  induction l as [|q l IH]; intros [|i] H; simpl in H; try discriminate.
  - injection H as ->. unfold authCount. simpl.
    destruct (authRequest p); reflexivity.
  - specialize (IH i H). unfold authCount in *.
    change (skipn (S (S i)) (q :: l)) with (skipn (S i) l).
    cbn [firstn app filter].
    destruct (authRequest q); cbn [List.length]; lia.
Qed.

Lemma authIdle_count (w : World) :
  authIdle w = true <-> authCount (inflight w) = 0%nat.
Proof.
  unfold authIdle, authCount.
  induction (inflight w) as [|p l IH]; simpl; [tauto|].
  destruct (authRequest p); simpl; [|exact IH].
  split; discriminate.
Qed.

(** Case analysis on whatever a handler branches on. *)
Ltac branch :=
  repeat match goal with
    | |- context [if ?c then _ else _] => destruct c eqn:?
    | |- context [match ?x with Some _ => _ | None => _ end] =>
        is_var x; destruct x
    end.

Ltac settle_cases p r H :=
  destruct p, r; cbn [resume] in H; try discriminate H;
  injection H as <-.

Lemma step_dashboardHasUser (e : Event) (w w' : World) :
  step e w = Some w' -> dashboardHasUser w -> dashboardHasUser w'.
Proof.
  unfold dashboardHasUser.
  open_world w.
  destruct e as [i v|b| |i rs| | |i r]; cbn [step]; intros H I.
  - destruct (_ && _); [|discriminate]. injection H as <-.
    destruct i; cbn [onChange]; crush; exact I.
  - destruct (Stage_eqb _ _); [|discriminate]. injection H as <-.
    destruct b; cbn [onClick]; crush; branch; crush;
      solve [exact I | intros; congruence].
  - destruct (Stage_eqb _ _); [|discriminate]. injection H as <-.
    crush; branch; crush; solve [exact I | intros; congruence].
  - destruct (webkitSpeechRecognition _); [|discriminate]. injection H as <-.
    crush; branch; crush; solve [exact I | intros; congruence].
  - destruct (webkitSpeechRecognition _); [|discriminate]. injection H as <-.
    crush; exact I.
  - destruct (webkitSpeechRecognition _); [|discriminate]. injection H as <-.
    crush; exact I.
  - destruct (nth_error _ _) as [p|]; [|discriminate].
    destruct (resume p r) as [k|] eqn:K; [|discriminate]. injection H as <-.
    settle_cases p r K; crush; branch; crush;
      solve [exact I | intros; congruence].
Qed.

Lemma run_dashboardHasUser (evs : list Event) (w w' : World) :
  run evs w = Some w' -> dashboardHasUser w -> dashboardHasUser w'.
Proof.
  revert w.
  induction evs as [|e evs IH]; intros w H I; simpl in H.
  - injection H as <-. exact I.
  - destruct (step e w) as [w1|] eqn:S; [|discriminate].
    eapply IH; [exact H|]. eapply step_dashboardHasUser; eassumption.
Qed.

Lemma boot_dashboardHasUser (h : Host) : dashboardHasUser (boot h).
Proof. unfold dashboardHasUser. simpl. discriminate. Qed.

(** On every dashboard the page can show, there is a user. *)
Lemma reachable_dashboard_user (w : World) :
  reachable w -> stage (session w) = Dashboard ->
  exists u, user (session w) = Some u.
Proof.
  intros (h & evs & R) D.
  pose proof (run_dashboardHasUser evs _ _ R (boot_dashboardHasUser h) D).
  destruct (user (session w)) as [u|]; [now exists u | congruence].
Qed.

Ltac count_auth :=
  repeat rewrite authCount_app;
  repeat match goal with
    | |- context [authCount [?p]] =>
        change (authCount [p]) with (if authRequest p then 1%nat else 0%nat);
        cbn [authRequest]
    end.

Ltac saturate :=
  try match goal with
    | I : authCount ?q = 1%nat -> _ |- _ =>
        let X := fresh in
        assert (X : authCount q = 1%nat) by lia; specialize (I X)
    end.

Ltac close_inv :=
  count_auth; cbn [authRequest] in *;
  repeat split; intros; saturate;
  solve [lia | congruence | intuition (try congruence; try lia)].

Lemma step_serialInv (e : Event) (w w' : World) :
  step e w = Some w' ->
  startsAuthRequest e = false \/ authIdle w = true ->
  serialInv w -> serialInv w'.
Proof.
  unfold serialInv.
  open_world w.
  destruct e as [i v|b| |i rs| | |i r]; cbn [step]; intros H A (I1 & I2 & I3).
  - destruct (_ && _); [|discriminate]. injection H as <-.
    destruct i; cbn [onChange]; crush; close_inv.
  - destruct (Stage_eqb _ _) eqn:St; [|discriminate]. injection H as <-.
    apply Stage_eqb_eq in St.
    destruct b; cbn [onClick buttonStage startsAuthRequest] in *;
      try (destruct A as [A|A]; [discriminate A|];
           apply authIdle_count in A);
      crush; branch; crush; close_inv.
  - destruct (Stage_eqb _ _); [|discriminate]. injection H as <-.
    crush; branch; crush; close_inv.
  - destruct (webkitSpeechRecognition _); [|discriminate]. injection H as <-.
    crush; branch; crush; close_inv.
  - destruct (webkitSpeechRecognition _); [|discriminate]. injection H as <-.
    crush; close_inv.
  - destruct (webkitSpeechRecognition _); [|discriminate]. injection H as <-.
    crush; close_inv.
  - destruct (nth_error _ _) as [p|] eqn:N; [|discriminate].
    destruct (resume p r) as [k|] eqn:K; [|discriminate]. injection H as <-.
    apply authCount_removeAt in N.
    settle_cases p r K; crush; branch; crush; close_inv.
Qed.

Lemma run_serialInv (evs : list Event) (w w' : World) :
  run evs w = Some w' -> serial evs w = true ->
  serialInv w -> serialInv w'.
Proof.
  revert w.
  induction evs as [|e evs IH]; intros w H S I; simpl in H, S.
  - injection H as <-. exact I.
  - destruct (step e w) as [w1|] eqn:E; [|discriminate].
    apply andb_true_iff in S. destruct S as [A S].
    apply orb_true_iff in A. rewrite negb_true_iff in A.
    eapply IH; [exact H | exact S |].
    eapply step_serialInv; eassumption.
Qed.

Lemma boot_serialInv (h : Host) : serialInv (boot h).
Proof.
  unfold serialInv, authCount. simpl. repeat split.
  - intros H. now contradiction H.
  - discriminate.
  - lia.
  - discriminate.
Qed.

(** ** OTP verification *)

(** C1. When the verification response has [success = true], the stage
    becomes [Login] if [user_exists] is true and [Register] if it is
    false, and the [user] cell is left as it was in both cases. *)
Theorem verifyOTP_success_stage (w : World) (d : VerifyOtpData) :
  success d = true ->
  let w' := verifyOTP_settled (Resolved d) w in
  (user_exists d = true -> stage (session w') = Login)
  /\ (user_exists d = false -> stage (session w') = Register)
  /\ user (session w') = user (session w).
Proof.
  intros Hs w'. subst w'. open_world w. crush. rewrite Hs.
  destruct (user_exists d); crush; repeat split; congruence.
Qed.

Lemma verifyOTP_success_stage_witness :
  (user_exists newCustomer = true ->
   stage (session (verifyOTP_settled (Resolved newCustomer) otpRequested))
   = Login)
  /\ (user_exists newCustomer = false ->
      stage (session (verifyOTP_settled (Resolved newCustomer) otpRequested))
      = Register)
  /\ user (session (verifyOTP_settled (Resolved newCustomer) otpRequested))
     = user (session otpRequested).
Proof.
  apply (verifyOTP_success_stage otpRequested newCustomer).
  reflexivity.
Defined.

(** A refused or failed verification changes no cell of the session. *)
Lemma verifyOTP_failure_session (w : World) (r : Outcome VerifyOtpData) :
  match r with Resolved d => success d = false | Rejected => True end ->
  session (verifyOTP_settled r w) = session w.
Proof.
  open_world w. destruct r as [d|]; intros H; crush; [rewrite H|]; reflexivity.
Qed.

(** C3. When the verification response has [success = false], or the
    request fails, a session at stage [VerifyOtp] stays there, and
    [user], [balance], [messages] and [transactions] are unchanged. *)
Theorem verifyOTP_failure_frame (w : World) (r : Outcome VerifyOtpData) :
  stage (session w) = VerifyOtp ->
  match r with Resolved d => success d = false | Rejected => True end ->
  let w' := verifyOTP_settled r w in
  stage (session w') = VerifyOtp
  /\ user (session w') = user (session w)
  /\ balance (session w') = balance (session w)
  /\ messages (session w') = messages (session w)
  /\ transactions (session w') = transactions (session w).
Proof.
  intros Hst Hr w'. subst w'.
  rewrite (verifyOTP_failure_session w r Hr).
  repeat split. exact Hst.
Qed.

Lemma verifyOTP_failure_frame_witness :
  stage (session (verifyOTP_settled (Resolved wrongOtp) otpRequested))
  = VerifyOtp
  /\ user (session (verifyOTP_settled (Resolved wrongOtp) otpRequested))
     = user (session otpRequested)
  /\ balance (session (verifyOTP_settled (Resolved wrongOtp) otpRequested))
     = balance (session otpRequested)
  /\ messages (session (verifyOTP_settled (Resolved wrongOtp) otpRequested))
     = messages (session otpRequested)
  /\ transactions (session (verifyOTP_settled (Resolved wrongOtp) otpRequested))
     = transactions (session otpRequested).
Proof.
  apply (verifyOTP_failure_frame otpRequested (Resolved wrongOtp));
    reflexivity.
Defined.

(** ** Login and registration *)

Lemma enter_dashboard (w : World) (u : User.t) (toast text : jsstring) :
  let w' :=
    (setUser (Some u) ;; setBalance (User.balance u) ;;
     setStage Dashboard ;; emit (ToastSuccess toast) ;; speak text ;;
     loadDashboard (User.id u)) w in
  let fetch :=
    Http (Get (API (host w) ++ lit "/user/" ++ User.id u
                 ++ lit "/transactions?limit=5")) in
  user (session w') = Some u
  /\ balance (session w') = User.balance u
  /\ stage (session w') = Dashboard
  /\ inflight w' = inflight w ++ [AwaitTransactions]
  /\ exists said, since w w' = ToastSuccess toast :: said ++ [fetch]
       /\ forall r, ~ In (Http r) said.
Proof.
  intros w' fetch. subst w' fetch. open_world w. unfold since. crush.
  destruct (speechSynthesis h); crush; repeat split.
  - exists [SynthCancel; SynthSpeak text].
    split; [|intros r [H|[H|[]]]; discriminate].
    rewrite <- !app_assoc, skipn_app, skipn_all, Nat.sub_diag. reflexivity.
  - exists [].
    split; [|intros r []].
    rewrite <- !app_assoc, skipn_app, skipn_all, Nat.sub_diag. reflexivity.
Qed.

(** C4. After a successful login and after a successful registration the
    balance is [user.balance] of the response, the stage is [Dashboard],
    and one request for the transactions of that user's id, with
    [limit=5], has been issued and is in flight. *)
Theorem login_register_success (w : World) (u : User.t) :
  let fetch :=
    Http (Get (API (host w) ++ lit "/user/" ++ User.id u
                 ++ lit "/transactions?limit=5")) in
  (let w' := login_settled (Resolved u) w in
   balance (session w') = User.balance u
   /\ stage (session w') = Dashboard
   /\ In fetch (since w w')
   /\ inflight w' = inflight w ++ [AwaitTransactions])
  /\
  (let w' := register_settled (Resolved u) w in
   balance (session w') = User.balance u
   /\ stage (session w') = Dashboard
   /\ In fetch (since w w')
   /\ inflight w' = inflight w ++ [AwaitTransactions]).
Proof.
  intros fetch. split; intros w'; subst w'.
  - destruct (enter_dashboard w u (lit "Login successful!")
               (lit "Welcome back " ++ User.name u
                ++ lit ". Your current balance is "
                ++ showZ (User.balance u) ++ lit " rupees."))
      as (_ & Hb & Hs & Hi & said & He & _).
    unfold login_settled. repeat split; try assumption.
    rewrite He. right. apply in_or_app. right. now left.
  - destruct (enter_dashboard w u (lit "Account created successfully!")
               (lit "Welcome to VoiceBank AI. Your account has been created successfully."))
      as (_ & Hb & Hs & Hi & said & He & _).
    unfold register_settled. repeat split; try assumption.
    rewrite He. right. apply in_or_app. right. now left.
Qed.

(** The walk of the new customer: the dashboard shows the balance of the
    response and the five latest transactions are being fetched. *)
Example enrolment_reaches_dashboard :
  run enrolment (boot demoHost) = Some signedIn
  /\ stage (session signedIn) = Dashboard
  /\ user (session signedIn) = Some asha
  /\ balance (session signedIn) = 5000%Z
  /\ inflight signedIn = [AwaitTransactions]
  /\ In (Http (Get (lit "http://localhost:8001/api/user/u1/transactions?limit=5")))
        (effects signedIn).
Proof.
  vm_compute. repeat split. do 9 right. now left.
Qed.

(** ** Logout *)

(** C6. Whatever the stage before, the logout handler leaves the stage at
    [Auth], the user absent and the message log empty. *)
Theorem logout_resets (w : World) :
  let w' := logout w in
  stage (session w') = Auth
  /\ user (session w') = None
  /\ messages (session w') = [].
Proof.
  open_world w. crush. repeat split.
Qed.

(** ** The chat exchange *)

Lemma sendMessage_blank (w : World) :
  blank (inputMessage (session w)) = true -> sendMessage w = w.
Proof.
  intros B. unfold sendMessage. rewrite truthy_trim, B. reflexivity.
Qed.

(** C10. When the input message is empty or made of white space only,
    [sendMessage] returns at once: no request is issued, nothing is
    suspended, and no cell of the session changes. *)
Theorem sendMessage_blank_noop (w : World) :
  Forall (fun c => isWhiteSpace c = true) (inputMessage (session w)) ->
  sendMessage w = w.
Proof.
  intros B. apply sendMessage_blank, blank_Forall, B.
Qed.

Lemma sendMessage_blank_noop_witness :
  Forall (fun c => isWhiteSpace c = true) (inputMessage (session typedBlanks))
  /\ sendMessage typedBlanks = typedBlanks.
Proof.
  assert (B : Forall (fun c => isWhiteSpace c = true)
                (inputMessage (session typedBlanks))).
  { apply blank_Forall. vm_compute. reflexivity. }
  split; [exact B|].
  exact (sendMessage_blank_noop typedBlanks B).
Defined.

(** The send button on a blank input is a turn of the loop in which
    nothing happens. *)
Lemma click_send_blank (w : World) :
  stage (session w) = Dashboard ->
  blank (inputMessage (session w)) = true ->
  step (Click SendBtn) w = Some w /\ step PressEnter w = Some w.
Proof.
  intros D B. cbn [step buttonStage onClick]. rewrite D. cbn [Stage_eqb].
  rewrite (sendMessage_blank w B). split; reflexivity.
Qed.

Lemma sendMessage_started (w : World) (u : User.t) :
  blank (inputMessage (session w)) = false ->
  user (session w) = Some u ->
  let text := inputMessage (session w) in
  let w1 := sendMessage w in
  messages (session w1) = messages (session w) ++ [userMsg text]
  /\ inputMessage (session w1) = []
  /\ transcript (session w1) = []
  /\ balance (session w1) = balance (session w)
  /\ inflight w1 = inflight w ++ [AwaitChat text u]
  /\ effects w1
     = effects w
       ++ [Http (Post (API (host w) ++ lit "/chat")
                      [field "message" text; field "user_id" (User.id u);
                       field "session_id" (sessionId (session w))])].
Proof.
  intros B U text w1. subst text w1.
  unfold sendMessage. rewrite truthy_trim, B. cbn [negb].
  open_world w. crush. rewrite U. repeat split.
Qed.

(** Without a user the [catch] block answers at once. *)
Lemma sendMessage_without_user (w : World) :
  blank (inputMessage (session w)) = false ->
  user (session w) = None ->
  let w1 := sendMessage w in
  messages (session w1)
  = messages (session w) ++ [userMsg (inputMessage (session w)); errorMsg]
  /\ inflight w1 = inflight w
  /\ effects w1 = effects w ++ [ToastError (lit "Failed to send message")].
Proof.
  intros B U w1. subst w1.
  unfold sendMessage. rewrite truthy_trim, B. cbn [negb].
  open_world w. crush. rewrite U. rewrite <- app_assoc. repeat split.
Qed.

Lemma sendMessage_answered (w : World) (sent : jsstring) (sender : User.t)
    (d : ChatData) :
  let w' := sendMessage_settled sent sender (Resolved d) w in
  messages (session w') = messages (session w) ++ [aiMsg (response d)]
  /\ balance (session w') = user_balance d
  /\ stage (session w') = stage (session w)
  /\ user (session w') = user (session w).
Proof.
  open_world w. crush.
  destruct (speechSynthesis h); crush;
    destruct (mentionsTransfers h sent); crush; repeat split.
Qed.

Lemma sendMessage_unanswered (w : World) (sent : jsstring) (sender : User.t) :
  let w' := sendMessage_settled sent sender Rejected w in
  messages (session w') = messages (session w) ++ [errorMsg]
  /\ balance (session w') = balance (session w)
  /\ inflight w' = inflight w
  /\ effects w' = effects w ++ [ToastError (lit "Failed to send message")].
Proof.
  open_world w. crush. repeat split.
Qed.

(** What the transaction refresh of a chat turn looks like. *)
Lemma sendMessage_refresh (w : World) (sent : jsstring) (sender : User.t)
    (d : ChatData) :
  let w' := sendMessage_settled sent sender (Resolved d) w in
  let fetch :=
    Http (Get (API (host w) ++ lit "/user/" ++ User.id sender
                 ++ lit "/transactions?limit=5")) in
  exists said,
    (forall r, ~ In (Http r) said)
    /\ if mentionsTransfers (host w) sent
       then since w w' = said ++ [fetch]
            /\ inflight w' = inflight w ++ [AwaitTransactions]
       else since w w' = said /\ inflight w' = inflight w.
Proof.
  open_world w. unfold since. crush.
  destruct (speechSynthesis h); crush;
    [exists [SynthCancel; SynthSpeak (response d)] | exists []];
    (split; [intros r; simpl; intuition discriminate|]);
    destruct (mentionsTransfers h sent); crush;
    rewrite <- ?app_assoc, ?app_nil_r, ?skipn_app, ?skipn_all, ?Nat.sub_diag;
    split; reflexivity.
Qed.

(** C5. After a successful chat exchange the request for the sender's
    transactions is issued exactly when the sent message, lower-cased,
    contains "transaction" or contains "transfer"; when it contains
    neither, no request at all is issued and nothing is left in flight. *)
Theorem chat_refresh_iff (w : World) (sent : jsstring) (sender : User.t)
    (d : ChatData) :
  let w' := sendMessage_settled sent sender (Resolved d) w in
  let lowered := toLowerCase (host w) sent in
  let fetch :=
    Http (Get (API (host w) ++ lit "/user/" ++ User.id sender
                 ++ lit "/transactions?limit=5")) in
  (In fetch (since w w')
   <-> contains lowered (lit "transaction") \/ contains lowered (lit "transfer"))
  /\ (inflight w' = inflight w ++ [AwaitTransactions]
      <-> contains lowered (lit "transaction")
          \/ contains lowered (lit "transfer"))
  /\ (~ (contains lowered (lit "transaction")
         \/ contains lowered (lit "transfer")) ->
      (forall r, ~ In (Http r) (since w w')) /\ inflight w' = inflight w).
Proof.
  intros w' lowered fetch. subst w' lowered fetch.
  rewrite <- mentionsTransfers_spec.
  destruct (sendMessage_refresh w sent sender d) as (said & Hn & H).
  destruct (mentionsTransfers (host w) sent).
  - destruct H as [-> ->]. split; [|split].
    + split; [reflexivity|]. intros _. apply in_or_app. right. now left.
    + split; reflexivity.
    + intros C. now contradiction C.
  - destruct H as [-> ->]. split; [|split].
    + split; [|discriminate]. intros C. now apply Hn in C.
    + split; [|discriminate]. intros C. exfalso.
      apply (f_equal (@List.length Pending)) in C.
      rewrite length_app in C. simpl in C. lia.
    + intros _. split; [exact Hn | reflexivity].
Qed.

(** The two messages of the specification's examples. *)
Example balance_question_no_refresh :
  balance (session (sendMessage_settled (lit "What is my balance?") asha
                      (Resolved balanceReply) (sendMessage typedBalance)))
  = 5000%Z
  /\ inflight (sendMessage typedBalance)
     = [AwaitTransactions; AwaitChat (lit "What is my balance?") asha]
  /\ inflight (sendMessage_settled (lit "What is my balance?") asha
                 (Resolved balanceReply) (sendMessage typedBalance))
     = inflight (sendMessage typedBalance)
  /\ since (sendMessage typedBalance)
           (sendMessage_settled (lit "What is my balance?") asha
              (Resolved balanceReply) (sendMessage typedBalance))
     = [SynthCancel; SynthSpeak (response balanceReply)].
Proof. vm_compute. repeat split. Qed.

Example transfers_request_refreshes :
  inflight (sendMessage_settled (lit "Show my transfers") asha
              (Resolved balanceReply) (sendMessage typedTransfers))
  = inflight (sendMessage typedTransfers) ++ [AwaitTransactions]
  /\ In (Http (Get (lit "http://localhost:8001/api/user/u1/transactions?limit=5")))
        (since (sendMessage typedTransfers)
               (sendMessage_settled (lit "Show my transfers") asha
                  (Resolved balanceReply) (sendMessage typedTransfers))).
Proof. vm_compute. split; [reflexivity|]. right. right. now left. Qed.

(** C2, as stated, fails: a message of one space is not empty, yet
    [sendMessage] appends no entry for it and sends nothing. *)
Lemma sendMessage_space_appends_nothing :
  inputMessage (session typedSpace) = lit " "
  /\ inputMessage (session typedSpace) <> []
  /\ stage (session typedSpace) = Dashboard
  /\ user (session typedSpace) = Some asha
  /\ messages (session (sendMessage typedSpace)) = messages (session typedSpace)
  /\ countRole RoleUser (messages (session (sendMessage typedSpace)))
     = countRole RoleUser (messages (session typedSpace))
  /\ inflight (sendMessage typedSpace) = inflight typedSpace
  /\ effects (sendMessage typedSpace) = effects typedSpace.
Proof. vm_compute. repeat split. discriminate. Qed.

(** C2, amended. On a dashboard the page can show, for every input
    message with a character that is not white space: [sendMessage]
    appends at once one user entry holding the input text and suspends on
    one chat request; when that request settles, one assistant entry is
    appended to the log as it then is.  On success the entry holds the
    response text and the balance becomes the returned [user_balance]; on
    failure it holds the fixed fallback text.  The user's entry stays in
    both cases, so a send adds exactly one entry of each role. *)
Theorem sendMessage_exchange (w : World) :
  reachable w ->
  stage (session w) = Dashboard ->
  blank (inputMessage (session w)) = false ->
  let text := inputMessage (session w) in
  let w1 := sendMessage w in
  exists u,
    user (session w) = Some u
    /\ messages (session w1) = messages (session w) ++ [userMsg text]
    /\ inflight w1 = inflight w ++ [AwaitChat text u]
    /\ (forall w2 d,
          let w3 := sendMessage_settled text u (Resolved d) w2 in
          messages (session w3) = messages (session w2) ++ [aiMsg (response d)]
          /\ balance (session w3) = user_balance d)
    /\ (forall w2,
          let w3 := sendMessage_settled text u Rejected w2 in
          messages (session w3) = messages (session w2) ++ [errorMsg])
    /\ (forall d,
          messages (session (sendMessage_settled text u (Resolved d) w1))
          = messages (session w) ++ [userMsg text; aiMsg (response d)])
    /\ messages (session (sendMessage_settled text u Rejected w1))
       = messages (session w) ++ [userMsg text; errorMsg]
    /\ (forall r,
          let w3 := sendMessage_settled text u r w1 in
          countRole RoleUser (messages (session w3))
          = S (countRole RoleUser (messages (session w)))
          /\ countRole RoleAssistant (messages (session w3))
             = S (countRole RoleAssistant (messages (session w)))).
Proof.
  intros R D B text w1.
  destruct (reachable_dashboard_user w R D) as [u U].
  destruct (sendMessage_started w u B U) as (M & _ & _ & _ & Q & _).
  fold text in M, Q. fold w1 in M, Q.
  assert (OK : forall w2 d,
             messages (session (sendMessage_settled text u (Resolved d) w2))
             = messages (session w2) ++ [aiMsg (response d)]
             /\ balance (session (sendMessage_settled text u (Resolved d) w2))
                = user_balance d).
  { intros w2 d.
    destruct (sendMessage_answered w2 text u d) as (A & Bal & _). now split. }
  assert (KO : forall w2,
             messages (session (sendMessage_settled text u Rejected w2))
             = messages (session w2) ++ [errorMsg]).
  { intros w2. now destruct (sendMessage_unanswered w2 text u) as (A & _). }
  exists u. repeat split; try assumption.
  - apply OK.
  - apply OK.
  - intros d. destruct (OK w1 d) as [-> _]. rewrite M, <- app_assoc. reflexivity.
  - rewrite KO, M, <- app_assoc. reflexivity.
  - destruct r as [d|].
    + destruct (OK w1 d) as [-> _]. rewrite M, !countRole_app. simpl. lia.
    + rewrite KO, M, !countRole_app. simpl. lia.
  - destruct r as [d|].
    + destruct (OK w1 d) as [-> _]. rewrite M, !countRole_app. simpl. lia.
    + rewrite KO, M, !countRole_app. simpl. lia.
Qed.

Lemma sendMessage_exchange_witness :
  reachable typedTransfers
  /\ stage (session typedTransfers) = Dashboard
  /\ blank (inputMessage (session typedTransfers)) = false
  /\ exists u,
       user (session typedTransfers) = Some u
       /\ messages (session (sendMessage typedTransfers))
          = messages (session typedTransfers)
            ++ [userMsg (inputMessage (session typedTransfers))]
       /\ inflight (sendMessage typedTransfers)
          = inflight typedTransfers
            ++ [AwaitChat (inputMessage (session typedTransfers)) u].
Proof.
  assert (R : reachable typedTransfers).
  { exists demoHost, (enrolment ++ [Change ChatInput (lit "Show my transfers")]).
    vm_compute. reflexivity. }
  split; [exact R|]. split; [reflexivity|]. split; [reflexivity|].
  destruct (sendMessage_exchange typedTransfers R eq_refl eq_refl)
    as (u & U & M & Q & _).
  exists u. split; [exact U|]. split; [exact M | exact Q].
Defined.

(** ** The user and the dashboard *)

(** C7, as stated, fails: the send-OTP button is pressed twice, the
    customer logs in on the first answer, and the second answer then puts
    the stage back to [VerifyOtp] while the user is still set. *)
Lemma stale_otp_breaks_invariant :
  exists w,
    run staleOtp (boot demoHost) = Some w
    /\ user (session w) = Some asha
    /\ stage (session w) = VerifyOtp
    /\ ~ (user (session w) <> None <-> stage (session w) = Dashboard).
Proof.
  eexists. split; [vm_compute; reflexivity|].
  cbn [session user stage]. repeat split.
  intros [H _]. assert (D : VerifyOtp = Dashboard) by (apply H; discriminate).
  discriminate D.
Qed.

(** C7, amended. In every state the page reaches from its first render,
    a session at stage [Dashboard] has a user; and when [sendOTP],
    [verifyOTP], [register] and [login] are each started only after the
    previous one of them has settled, the user is present if and only if
    the stage is [Dashboard]. *)
Theorem user_iff_dashboard (h : Host) (evs : list Event) (w : World) :
  run evs (boot h) = Some w ->
  (stage (session w) = Dashboard -> user (session w) <> None)
  /\ (serial evs (boot h) = true ->
      (user (session w) <> None <-> stage (session w) = Dashboard)).
Proof.
  intros R. split.
  - exact (run_dashboardHasUser evs _ _ R (boot_dashboardHasUser h)).
  - intros S.
    exact (proj1 (run_serialInv evs _ _ R S (boot_serialInv h))).
Qed.

Lemma user_iff_dashboard_witness :
  run enrolment (boot demoHost) = Some signedIn
  /\ serial enrolment (boot demoHost) = true
  /\ (stage (session signedIn) = Dashboard -> user (session signedIn) <> None)
  /\ (user (session signedIn) <> None <-> stage (session signedIn) = Dashboard).
Proof.
  assert (R : run enrolment (boot demoHost) = Some signedIn)
    by (vm_compute; reflexivity).
  assert (S : serial enrolment (boot demoHost) = true)
    by (vm_compute; reflexivity).
  split; [exact R|]. split; [exact S|].
  destruct (user_iff_dashboard demoHost enrolment signedIn R) as [D I].
  split; [exact D | exact (I S)].
Defined.

(** ** Asking for the OTP *)

(** C8, as stated, fails: with the phone input left empty the request is
    sent all the same, and when the backend answers it the stage
    advances. *)
Lemma empty_phone_advances :
  exists w,
    run emptyPhone (boot demoHost) = Some w
    /\ phone (session (boot demoHost)) = []
    /\ phone (session w) = []
    /\ stage (session w) = VerifyOtp
    /\ since (boot demoHost) w
       = [Http (Post (lit "http://localhost:8001/api/auth/send-otp")
                     [field "phone" []]);
          ToastSuccess (lit "OTP sent: 123456")].
Proof.
  eexists. split; [vm_compute; reflexivity|].
  vm_compute. repeat split.
Qed.

(** C8, amended. At stage [Auth], submitting the phone number sends the
    send-otp request with the phone value whatever it is, the empty one
    included, and leaves the session as it is; the stage becomes
    [VerifyOtp] when that request succeeds and no cell of the session
    changes when it fails. *)
Theorem sendOTP_transition (w : World) :
  stage (session w) = Auth ->
  step (Click SendOtpBtn) w = Some (sendOTP w)
  /\ session (sendOTP w) = session w
  /\ inflight (sendOTP w) = inflight w ++ [AwaitSendOtp]
  /\ effects (sendOTP w)
     = effects w
       ++ [Http (Post (API (host w) ++ lit "/auth/send-otp")
                      [field "phone" (phone (session w))])]
  /\ (forall w2 mock_otp,
        stage (session (sendOTP_settled (Resolved mock_otp) w2)) = VerifyOtp)
  /\ (forall w2, session (sendOTP_settled Rejected w2) = session w2).
Proof.
  intros A. split.
  - cbn [step buttonStage onClick]. rewrite A. reflexivity.
  - open_world w. crush. repeat split.
Qed.

Lemma sendOTP_transition_witness :
  step (Click SendOtpBtn) (boot demoHost) = Some (sendOTP (boot demoHost))
  /\ session (sendOTP (boot demoHost)) = session (boot demoHost)
  /\ inflight (sendOTP (boot demoHost))
     = inflight (boot demoHost) ++ [AwaitSendOtp]
  /\ effects (sendOTP (boot demoHost))
     = effects (boot demoHost)
       ++ [Http (Post (API (host (boot demoHost)) ++ lit "/auth/send-otp")
                      [field "phone" (phone (session (boot demoHost)))])]
  /\ (forall w2 mock_otp,
        stage (session (sendOTP_settled (Resolved mock_otp) w2)) = VerifyOtp)
  /\ (forall w2, session (sendOTP_settled Rejected w2) = session w2).
Proof.
  exact (sendOTP_transition (boot demoHost) eq_refl).
Defined.

(** ** Failures *)

(** C9, as stated, fails: when the request for the transaction list
    fails, the handler writes to the console and shows no notification. *)
Lemma failed_fetch_shows_no_toast :
  since refreshing (loadDashboard_settled Rejected refreshing)
  = [ConsoleError (lit "Failed to load transactions")]
  /\ existsb isToast
       (since refreshing (loadDashboard_settled Rejected refreshing)) = false
  /\ session (loadDashboard_settled Rejected refreshing) = session refreshing.
Proof. vm_compute. repeat split. Qed.

(** C9, amended. A failed send-otp, verify-otp, register, login or chat
    request ends in one error notification at its call site; a failed
    request for the transaction list is caught as well, but is only
    written to the console: no notification is shown and the session is
    unchanged. *)
Theorem failures_at_call_site (w : World) (sent : jsstring) (sender : User.t) :
  since w (sendOTP_settled Rejected w)
  = [ToastError (lit "Failed to send OTP")]
  /\ since w (verifyOTP_settled Rejected w)
     = [ConsoleError (lit "OTP verification error:");
        ToastError (lit "Invalid OTP")]
  /\ since w (register_settled Rejected w)
     = [ToastError (lit "Registration failed")]
  /\ since w (login_settled Rejected w)
     = [ToastError (lit "Invalid credentials")]
  /\ since w (sendMessage_settled sent sender Rejected w)
     = [ToastError (lit "Failed to send message")]
  /\ since w (loadDashboard_settled Rejected w)
     = [ConsoleError (lit "Failed to load transactions")]
  /\ session (loadDashboard_settled Rejected w) = session w.
Proof.
  repeat split; try (apply since_app); open_world w; crush;
    rewrite <- ?app_assoc; reflexivity.
Qed.

(** ** Sending twice, and what the guard lets through *)

Lemma app_cons_neq {A : Type} (l l' : list A) (x : A) : l ++ x :: l' <> l.
Proof.
  intros H. apply (f_equal (@List.length A)) in H.
  rewrite length_app in H. simpl in H. lia.
Qed.

Lemma sendMessage_clears_input (w : World) :
  blank (inputMessage (session w)) = false ->
  inputMessage (session (sendMessage w)) = [].
Proof.
  intros B. unfold sendMessage. rewrite truthy_trim, B. cbn [negb].
  open_world w. crush. destruct user0; reflexivity.
Qed.

(** X1. Sending is idempotent: the first send empties the input cell, so
    a second press of the send button right after it changes nothing and
    issues no second request. *)
Theorem sendMessage_twice (w : World) :
  sendMessage (sendMessage w) = sendMessage w.
Proof.
  destruct (blank (inputMessage (session w))) eqn:B.
  - now rewrite !(sendMessage_blank w B).
  - apply sendMessage_blank.
    now rewrite (sendMessage_clears_input w B).
Qed.

(** X2. [sendMessage] leaves the world as it is exactly when the input
    is empty or white space only: every other input changes the log. *)
Theorem sendMessage_noop_iff (w : World) :
  sendMessage w = w <-> blank (inputMessage (session w)) = true.
Proof.
  split; [|apply sendMessage_blank].
  destruct (blank (inputMessage (session w))) eqn:B; [reflexivity|].
  intros H. exfalso.
  apply (f_equal (fun x => messages (session x))) in H.
  revert H. unfold sendMessage. rewrite truthy_trim, B. cbn [negb].
  open_world w. crush. destruct user0; crush.
  - apply app_cons_neq.
  - rewrite <- app_assoc. apply app_cons_neq.
Qed.

(** ** The recognizer *)

Lemma fold_final (l : list SpeechResult) (acc : jsstring) :
  fold_left (fun a r => if isFinal r then a ++ transcript0 r else a) l acc
  = acc ++ List.concat (map transcript0 (filter isFinal l)).
Proof.
  revert acc.
  induction l as [|r l IH]; intros acc; simpl.
  - now rewrite app_nil_r.
  - rewrite IH. destruct (isFinal r); simpl; [|reflexivity].
    now rewrite app_assoc.
Qed.

(** X3. The transcript of a recognition event is the concatenation, in
    order, of the transcripts of the final results from [resultIndex]
    on: interim results and the results before [resultIndex] do not
    contribute, and an index past the end gives the empty transcript. *)
Theorem finalTranscript_concat (resultIndex : nat) (results : list SpeechResult) :
  finalTranscript resultIndex results
  = List.concat (map transcript0 (filter isFinal (skipn resultIndex results)))
  /\ ((List.length results <= resultIndex)%nat ->
      finalTranscript resultIndex results = []).
Proof.
  unfold finalTranscript. split.
  - apply fold_final.
  - intros L. now rewrite skipn_all2.
Qed.

Lemma finalTranscript_concat_witness :
  (List.length murmur <= 2)%nat /\ finalTranscript 2 murmur = [].
Proof.
  assert (L : (List.length murmur <= 2)%nat) by (simpl; lia).
  split; [exact L|].
  exact (proj2 (finalTranscript_concat 2 murmur) L).
Defined.

(** X4. A recognition event whose results from [resultIndex] on are all
    interim changes nothing: neither the transcript nor the input. *)
Theorem onresult_interim_noop (resultIndex : nat) (results : list SpeechResult)
    (w : World) :
  forallb (fun r => negb (isFinal r)) (skipn resultIndex results) = true ->
  onresult resultIndex results w = w.
Proof.
  intros I. unfold onresult, finalTranscript. rewrite fold_final.
  replace (filter isFinal (skipn resultIndex results)) with (@nil SpeechResult).
  - reflexivity.
  - symmetry. induction (skipn resultIndex results) as [|r l IH]; simpl in *.
    + reflexivity.
    + apply andb_true_iff in I. destruct I as [F I].
      apply negb_true_iff in F. rewrite F. now apply IH.
Qed.

Lemma onresult_interim_noop_witness :
  onresult 0 murmur typedBalance = typedBalance.
Proof.
  exact (onresult_interim_noop 0 murmur typedBalance eq_refl).
Defined.

Lemma onresult_final (resultIndex : nat) (results : list SpeechResult)
    (w : World) :
  finalTranscript resultIndex results <> [] ->
  let final := finalTranscript resultIndex results in
  let w' := onresult resultIndex results w in
  host w' = host w
  /\ session w'
     = {| stage := stage (session w); phone := phone (session w);
          otp := otp (session w); pin := pin (session w);
          name := name (session w); user := user (session w);
          isListening := isListening (session w); transcript := final;
          messages := messages (session w); inputMessage := final;
          balance := balance (session w);
          transactions := transactions (session w);
          sessionId := sessionId (session w) |}
  /\ inflight w' = inflight w
  /\ effects w' = effects w.
Proof.
  intros F final w'. subst final w'. unfold onresult.
  destruct (finalTranscript resultIndex results) as [|c s] eqn:E;
    [now contradiction F|].
  cbn [truthy]. open_world w. crush. repeat split.
Qed.

(** X5. When an event carries final text, that text replaces both the
    transcript and whatever was in the input cell, and nothing else of
    the session changes. *)
Theorem onresult_overwrites (resultIndex : nat) (results : list SpeechResult)
    (w : World) :
  finalTranscript resultIndex results <> [] ->
  let final := finalTranscript resultIndex results in
  let w' := onresult resultIndex results w in
  transcript (session w') = final
  /\ inputMessage (session w') = final
  /\ messages (session w') = messages (session w)
  /\ stage (session w') = stage (session w)
  /\ user (session w') = user (session w)
  /\ balance (session w') = balance (session w)
  /\ inflight w' = inflight w
  /\ effects w' = effects w.
Proof.
  intros F final w'. subst final w'.
  destruct (onresult_final resultIndex results w F) as (_ & -> & Q & E).
  cbn [transcript inputMessage messages stage user balance].
  repeat split; assumption.
Qed.

Lemma onresult_overwrites_witness :
  finalTranscript 0 heard <> []
  /\ inputMessage (session typedBalance) = lit "What is my balance?"
  /\ inputMessage (session (onresult 0 heard typedBalance))
     = lit "Show my transfers".
Proof.
  assert (F : finalTranscript 0 heard <> []) by (vm_compute; discriminate).
  split; [exact F|]. split; [reflexivity|].
  destruct (onresult_overwrites 0 heard typedBalance F) as (_ & I & _).
  rewrite I. vm_compute. reflexivity.
Defined.

(** X6. What is recognised is what is sent: with a user present, sending
    right after a recognition event with final text that is not blank
    logs that text as the user's entry, suspends on one chat request
    carrying it, and empties the input and the transcript. *)
Theorem recognised_then_sent (resultIndex : nat) (results : list SpeechResult)
    (w : World) (u : User.t) :
  blank (finalTranscript resultIndex results) = false ->
  user (session w) = Some u ->
  let final := finalTranscript resultIndex results in
  let w' := sendMessage (onresult resultIndex results w) in
  messages (session w') = messages (session w) ++ [userMsg final]
  /\ inflight w' = inflight w ++ [AwaitChat final u]
  /\ since w w'
     = [Http (Post (API (host w) ++ lit "/chat")
                   [field "message" final; field "user_id" (User.id u);
                    field "session_id" (sessionId (session w))])]
  /\ inputMessage (session w') = []
  /\ transcript (session w') = [].
Proof.
  intros B U final w'. subst final w'.
  assert (F : finalTranscript resultIndex results <> []).
  { intros E. rewrite E in B. discriminate B. }
  destruct (onresult_final resultIndex results w F) as (Hh & S1 & Q & Es).
  set (w1 := onresult resultIndex results w) in *.
  assert (I : inputMessage (session w1) = finalTranscript resultIndex results)
    by now rewrite S1.
  assert (Us : user (session w1) = Some u) by now rewrite S1.
  rewrite <- I in B.
  destruct (sendMessage_started w1 u B Us) as (M1 & I1 & T1 & _ & Q1 & E1).
  rewrite I in M1, Q1, E1. rewrite Q in Q1. rewrite Es, Hh in E1.
  rewrite S1 in M1, E1. cbn [messages sessionId] in M1, E1.
  repeat split; try assumption.
  now apply since_app.
Qed.

Lemma recognised_then_sent_witness :
  blank (finalTranscript 0 heard) = false
  /\ user (session signedIn) = Some asha
  /\ inflight (sendMessage (onresult 0 heard signedIn))
     = inflight signedIn ++ [AwaitChat (finalTranscript 0 heard) asha].
Proof.
  assert (B : blank (finalTranscript 0 heard) = false)
    by (vm_compute; reflexivity).
  assert (U : user (session signedIn) = Some asha)
    by (vm_compute; reflexivity).
  split; [exact B|]. split; [exact U|].
  exact (proj1 (proj2 (recognised_then_sent 0 heard signedIn asha B U))).
Defined.

(** ** The microphone button *)


(** ** More invariants of the event loop *)

Lemma run_preserves (P : World -> Prop) :
  (forall e w w', step e w = Some w' -> P w -> P w') ->
  forall evs w w', run evs w = Some w' -> P w -> P w'.
Proof.
  intros Hstep evs.
  induction evs as [|e evs IH]; intros w w' H I; simpl in H.
  - injection H as <-. exact I.
  - destruct (step e w) as [w1|] eqn:S; [|discriminate].
    eapply IH; [exact H|]. eapply Hstep; eassumption.
Qed.

(** Opening a turn of the loop: the event is enabled and [w'] is what
    its handler returns. *)
Ltac turn H :=
  cbn [step] in H;
  repeat match type of H with
    | (if ?c then _ else _) = _ =>
        let E := fresh "E" in destruct c eqn:E; [|discriminate H]
    | match ?c with Some _ => _ | None => _ end = _ =>
        let E := fresh "N" in
        let x := fresh "x" in
        destruct c as [x|] eqn:E; [|discriminate H]
    end;
  injection H as <-.

Lemma cancels_snoc (es : list Effect) (e : Effect) :
  cancelsBeforeSpeaking es ->
  (forall text, e = SynthSpeak text -> exists es', es = es' ++ [SynthCancel]) ->
  cancelsBeforeSpeaking (es ++ [e]).
Proof.
  unfold cancelsBeforeSpeaking. intros P L pre text post H.
  destruct post as [|x post _] using rev_ind.
  - apply app_inj_tail in H. destruct H as [<- ->]. now apply (L text).
  - change (pre ++ SynthSpeak text :: post ++ [x])
      with (pre ++ (SynthSpeak text :: post) ++ [x]) in H.
    rewrite app_assoc in H.
    apply app_inj_tail in H. destruct H as [H _].
    now apply (P pre text post).
Qed.

Ltac spoken :=
  repeat (apply cancels_snoc;
          [|let X := fresh in
            intros ? X; first [discriminate X | eexists; reflexivity]]);
  try assumption.

Lemma step_cancels (e : Event) (w w' : World) :
  step e w = Some w' ->
  cancelsBeforeSpeaking (effects w) -> cancelsBeforeSpeaking (effects w').
Proof.
  open_world w.
  destruct e as [i v|b| |i rs| | |i r]; intros H I; turn H.
  - destruct i; cbn [onChange]; crush; exact I.
  - destruct b; cbn [onClick]; crush; branch; crush; spoken.
  - crush; branch; crush; spoken.
  - crush; branch; crush; spoken.
  - crush; spoken.
  - crush; exact I.
  - rename x into p, x0 into k.
    settle_cases p r N0; crush; branch; crush; spoken.
Qed.

(** X8. In every state the page reaches, each utterance handed to the
    synthesizer comes right after a cancellation of the one before:
    [speak] never starts a second utterance on top of the first. *)
Theorem speech_preempts (h : Host) (evs : list Event) (w : World) :
  run evs (boot h) = Some w ->
  cancelsBeforeSpeaking (effects w).
Proof.
  intros R.
  apply (run_preserves (fun x => cancelsBeforeSpeaking (effects x))
           step_cancels evs _ _ R).
  intros pre text post H. destruct pre; discriminate H.
Qed.

Lemma speech_preempts_witness :
  run enrolment (boot demoHost) = Some signedIn
  /\ cancelsBeforeSpeaking (effects signedIn).
Proof.
  assert (R : run enrolment (boot demoHost) = Some signedIn)
    by (vm_compute; reflexivity).
  split; [exact R|].
  exact (speech_preempts demoHost enrolment signedIn R).
Defined.

Lemma length_removeAt {A : Type} (i : nat) (l : list A) (x : A) :
  nth_error l i = Some x -> List.length l = S (List.length (removeAt i l)).
Proof.
  unfold removeAt. revert i.
  induction l as [|y l IH]; intros [|i] H; simpl in H; try discriminate.
  - reflexivity.
  - change (skipn (S (S i)) (y :: l)) with (skipn (S i) l).
    cbn [firstn app List.length]. now rewrite (IH i H).
Qed.

Lemma issued_snoc (es : list Effect) (e : Effect) :
  issued (es ++ [e]) = (issued es + if isHttp e then 1 else 0)%nat.
Proof.
  unfold issued. rewrite filter_app, length_app. simpl.
  destruct (isHttp e); reflexivity.
Qed.

Ltac tally :=
  repeat rewrite issued_snoc; repeat rewrite length_app;
  cbv beta iota delta [isHttp isSettle]; cbn [List.length]; lia.

Lemma step_conserves (e : Event) (w w' : World) :
  step e w = Some w' ->
  (issued (effects w') + List.length (inflight w))%nat
  = (issued (effects w) + List.length (inflight w')
     + if isSettle e then 1 else 0)%nat.
Proof.
  open_world w.
  destruct e as [i v|b| |i rs| | |i r]; intros H; turn H;
    cbv beta iota delta [isSettle].
  - destruct i; cbn [onChange]; crush; tally.
  - destruct b; cbn [onClick]; crush; branch; crush; tally.
  - crush; branch; crush; tally.
  - crush; branch; crush; tally.
  - crush; tally.
  - crush; tally.
  - rename x into p, x0 into k. crush.
    apply length_removeAt in N.
    settle_cases p r N0; crush; branch; crush; tally.
Qed.

(** X9. Requests are conserved: in every state the page reaches, the
    number of requests issued equals the number still in flight plus the
    number answered.  No handler waits without a request, and no request
    is answered twice. *)
Theorem requests_conserved (h : Host) (evs : list Event) (w : World) :
  run evs (boot h) = Some w ->
  issued (effects w) = (List.length (inflight w) + answered evs)%nat.
Proof.
  assert (G : forall evs w0 w1, run evs w0 = Some w1 ->
            (issued (effects w1) + List.length (inflight w0))%nat
            = (issued (effects w0) + List.length (inflight w1)
               + answered evs)%nat).
  { clear. intros evs.
    induction evs as [|e evs IH]; intros w0 w1 H; simpl in H.
    - injection H as <-. unfold answered. simpl. lia.
    - destruct (step e w0) as [w2|] eqn:S; [|discriminate].
      apply step_conserves in S. apply IH in H.
      unfold answered in *. cbn [filter].
      destruct (isSettle e); cbn [List.length]; lia. }
  intros R. apply G in R. simpl in R. unfold issued in *. simpl in R. lia.
Qed.

Lemma requests_conserved_witness :
  run enrolment (boot demoHost) = Some signedIn
  /\ issued (effects signedIn)
     = (List.length (inflight signedIn) + answered enrolment)%nat.
Proof.
  assert (R : run enrolment (boot demoHost) = Some signedIn)
    by (vm_compute; reflexivity).
  split; [exact R|].
  exact (requests_conserved demoHost enrolment signedIn R).
Defined.

Lemma step_keeps_identity (e : Event) (w w' : World) :
  step e w = Some w' ->
  host w' = host w /\ sessionId (session w') = sessionId (session w).
Proof.
  open_world w.
  destruct e as [i v|b| |i rs| | |i r]; intros H; turn H.
  - destruct i; cbn [onChange]; crush; split; reflexivity.
  - destruct b; cbn [onClick]; crush; branch; crush; split; reflexivity.
  - crush; branch; crush; split; reflexivity.
  - crush; branch; crush; split; reflexivity.
  - crush; split; reflexivity.
  - crush; split; reflexivity.
  - rename x into p, x0 into k.
    settle_cases p r N0; crush; branch; crush; split; reflexivity.
Qed.

(** X10. The session token is fixed at the first render: in every state
    the page reaches it is still "session_" followed by the launch time,
    whatever was typed, answered or logged out in between. *)
Theorem sessionId_fixed (h : Host) (evs : list Event) (w : World) :
  run evs (boot h) = Some w ->
  host w = h
  /\ sessionId (session w) = lit "session_" ++ showZ (Date_now h).
Proof.
  intros R.
  apply (run_preserves
           (fun x => host x = h
                     /\ sessionId (session x)
                        = lit "session_" ++ showZ (Date_now h))) with (2 := R).
  - intros e w0 w1 S [Hh Hs].
    destruct (step_keeps_identity e w0 w1 S) as [-> ->]. now split.
  - split; reflexivity.
Qed.

Lemma sessionId_fixed_witness :
  run enrolment (boot demoHost) = Some signedIn
  /\ sessionId (session signedIn) = lit "session_1700000000000".
Proof.
  assert (R : run enrolment (boot demoHost) = Some signedIn)
    by (vm_compute; reflexivity).
  split; [exact R|].
  destruct (sessionId_fixed demoHost enrolment signedIn R) as [_ S].
  rewrite S. vm_compute. reflexivity.
Defined.




(** ** The stage diagram *)

Lemma waitsAt_app (st : Stage) (l1 l2 : list Pending) :
  waitsAt st (l1 ++ l2) = waitsAt st l1 && waitsAt st l2.
Proof. unfold waitsAt. apply forallb_app. Qed.

Lemma waitsAt_idle (st : Stage) (l : list Pending) :
  authCount l = 0%nat -> waitsAt st l = true.
Proof.
  unfold authCount, waitsAt.
  induction l as [|p l IH]; simpl; [reflexivity|].
  destruct p; simpl; try discriminate; exact IH.
Qed.

Lemma waitsAt_removeAt (st : Stage) (i : nat) (l : list Pending) :
  waitsAt st l = true -> waitsAt st (removeAt i l) = true.
Proof.
  unfold waitsAt, removeAt. revert i.
  induction l as [|p l IH]; intros [|i] H; try reflexivity.
  - simpl in *. now apply andb_true_iff in H.
  - change (skipn (S (S i)) (p :: l)) with (skipn (S i) l).
    cbn [firstn app forallb] in *.
    apply andb_true_iff in H. destruct H as [-> H].
    now apply IH.
Qed.

Lemma waitsAt_nth (st s : Stage) (i : nat) (l : list Pending) (p : Pending) :
  waitsAt st l = true -> nth_error l i = Some p -> origin p = Some s ->
  st = s.
Proof.
  unfold waitsAt. rewrite forallb_forall. intros H N O.
  apply nth_error_In in N. specialize (H p N). rewrite O in H.
  now apply Stage_eqb_eq.
Qed.

Ltac waits :=
  rewrite ?waitsAt_app; cbn [waitsAt forallb origin andb Stage_eqb];
  rewrite ?andb_true_r;
  first [ assumption
        | apply waitsAt_idle; lia
        | apply waitsAt_removeAt; assumption
        | reflexivity ].

Ltac arrow := first [left; reflexivity | right; reflexivity].

Lemma step_follows (e : Event) (w w' : World) :
  step e w = Some w' ->
  startsAuthRequest e = false \/ authIdle w = true ->
  serialInv w ->
  waitsAt (stage (session w)) (inflight w) = true ->
  waitsAt (stage (session w')) (inflight w') = true
  /\ (stage (session w') = stage (session w)
      \/ follows (stage (session w)) (stage (session w')) = true).
Proof.
  unfold serialInv. open_world w.
  destruct e as [i v|b| |i rs| | |i r]; intros H A (I1 & I2 & I3) W; turn H.
  - destruct i; cbn [onChange]; crush; (split; [waits | arrow]).
  - apply Stage_eqb_eq in E. cbn [stage session] in E.
    destruct b; cbn [onClick buttonStage startsAuthRequest] in *;
      try (destruct A as [A|A]; [discriminate A|];
           apply authIdle_count in A);
      crush; branch; crush; subst stage0;
      try (assert (authCount q = 0%nat)
             by (destruct (authCount q) as [|[|n]];
                 [reflexivity | now contradiction I3 | lia]));
      (split; [waits | arrow]).
  - crush; branch; crush; (split; [waits | arrow]).
  - crush; branch; crush; (split; [waits | arrow]).
  - crush; (split; [waits | arrow]).
  - crush; (split; [waits | arrow]).
  - rename x into p, x0 into k. crush.
    pose proof (authCount_removeAt _ _ _ N) as C.
    settle_cases p r N0; cbn [authRequest] in C;
      try (pose proof (waitsAt_nth _ _ _ _ _ W N eq_refl); subst stage0);
      crush; branch; crush; (split; [waits | arrow]).
Qed.

Lemma run_follows (evs : list Event) (w w' : World) :
  run evs w = Some w' -> serial evs w = true ->
  serialInv w /\ waitsAt (stage (session w)) (inflight w) = true ->
  serialInv w' /\ waitsAt (stage (session w')) (inflight w') = true.
Proof.
  revert w.
  induction evs as [|e evs IH]; intros w H S I; simpl in H, S.
  - injection H as <-. exact I.
  - destruct (step e w) as [w1|] eqn:E; [|discriminate].
    apply andb_true_iff in S. destruct S as [A S].
    apply orb_true_iff in A. rewrite negb_true_iff in A.
    destruct I as [I W].
    eapply IH; [exact H | exact S |]. split.
    + eapply step_serialInv; eassumption.
    + eapply step_follows; eassumption.
Qed.

Lemma serial_snoc (evs : list Event) (e : Event) (w w' : World) :
  run evs w = Some w' -> serial (evs ++ [e]) w = true ->
  serial evs w = true
  /\ (startsAuthRequest e = false \/ authIdle w' = true).
Proof.
  revert w.
  induction evs as [|x evs IH]; intros w H S; simpl in H, S.
  - injection H as <-. split; [reflexivity|].
    apply andb_true_iff in S. destruct S as [A _].
    apply orb_true_iff in A. now rewrite negb_true_iff in A.
  - destruct (step x w) as [w1|] eqn:E; [|discriminate].
    apply andb_true_iff in S. destruct S as [A S].
    destruct (IH w1 H S) as [S1 A1].
    split; [|exact A1].
    simpl. rewrite E, A, S1. reflexivity.
Qed.

(** X12. With one authentication request at a time, every turn of the
    loop either keeps the stage or moves it along an arrow of the
    diagram auth -> verify-otp -> register or login -> dashboard ->
    auth: no form is skipped and there is no way back except through
    the dashboard's logout. *)
Theorem serial_follows_diagram (h : Host) (evs : list Event) (e : Event)
    (w w' : World) :
  run evs (boot h) = Some w ->
  serial (evs ++ [e]) (boot h) = true ->
  step e w = Some w' ->
  stage (session w') = stage (session w)
  \/ follows (stage (session w)) (stage (session w')) = true.
Proof.
  intros R S E.
  destruct (serial_snoc evs e _ _ R S) as [S0 A].
  destruct (run_follows evs _ _ R S0) as [I W].
  { split; [apply boot_serialInv | reflexivity]. }
  exact (proj2 (step_follows e w w' E A I W)).
Qed.

Lemma serial_follows_diagram_witness :
  run (firstn 2 enrolment) (boot demoHost)
  = Some (sendOTP (onChange PhoneInput (lit "9876543210") (boot demoHost)))
  /\ serial (firstn 3 enrolment) (boot demoHost) = true
  /\ follows Auth (stage (session otpRequested)) = true.
Proof.
  assert (R : run (firstn 2 enrolment) (boot demoHost)
              = Some (sendOTP (onChange PhoneInput (lit "9876543210")
                                 (boot demoHost))))
    by (vm_compute; reflexivity).
  assert (S : serial (firstn 2 enrolment ++ [Settle 0 (ReplySendOtp (lit "123456"))])
                (boot demoHost) = true)
    by (vm_compute; reflexivity).
  split; [exact R|]. split; [exact S|].
  destruct (serial_follows_diagram demoHost (firstn 2 enrolment)
              (Settle 0 (ReplySendOtp (lit "123456"))) _ otpRequested
              R S eq_refl) as [D|D].
  - discriminate D.
  - exact D.
Defined.

(** ** What a turn of the loop can and cannot change *)

Ltac appended :=
  first [ exists []; split; [now rewrite app_nil_r | simpl; lia]
        | eexists [_]; split; [reflexivity | simpl; lia]
        | eexists [_; _]; split;
          [rewrite <- app_assoc; reflexivity | simpl; lia] ].

(** X13. The message log is append-only: every turn of the loop other
    than the logout button keeps the entries there are and adds at most
    two at the end. *)
Theorem messages_append_only (e : Event) (w w' : World) :
  step e w = Some w' ->
  e <> Click LogoutBtn ->
  exists added,
    messages (session w') = messages (session w) ++ added
    /\ (List.length added <= 2)%nat.
Proof.
  open_world w.
  destruct e as [i v|b| |i rs| | |i r]; intros H L; turn H.
  - destruct i; cbn [onChange]; crush; appended.
  - destruct b; try (now contradiction L);
      cbn [onClick]; crush; branch; crush; appended.
  - crush; branch; crush; appended.
  - crush; branch; crush; appended.
  - crush; appended.
  - crush; appended.
  - rename x into p, x0 into k.
    settle_cases p r N0; crush; branch; crush; appended.
Qed.

Lemma messages_append_only_witness :
  step (Click SendBtn) typedTransfers = Some (sendMessage typedTransfers)
  /\ exists added,
       messages (session (sendMessage typedTransfers))
       = messages (session typedTransfers) ++ added
       /\ (List.length added <= 2)%nat.
Proof.
  assert (S : step (Click SendBtn) typedTransfers
              = Some (sendMessage typedTransfers)) by reflexivity.
  split; [exact S|].
  apply (messages_append_only (Click SendBtn) typedTransfers _ S).
  discriminate.
Defined.

(** X14. No input, button or recognizer callback changes the balance or
    the list of transactions, and the logout button is the only one of
    them that changes the stage or the user: every other change of these
    comes with an answer of the backend. *)
Theorem input_keeps_account (e : Event) (w w' : World) :
  step e w = Some w' ->
  isSettle e = false ->
  balance (session w') = balance (session w)
  /\ transactions (session w') = transactions (session w)
  /\ (e <> Click LogoutBtn ->
      stage (session w') = stage (session w)
      /\ user (session w') = user (session w)).
Proof.
  open_world w.
  destruct e as [i v|b| |i rs| | |i r]; intros H L; turn H;
    try discriminate L.
  - destruct i; cbn [onChange]; crush; repeat split.
  - destruct b; cbn [onClick]; crush; branch; crush;
      (split; [reflexivity | split; [reflexivity |]]);
      intros X; first [now contradiction X | split; reflexivity].
  - crush; branch; crush; repeat split.
  - crush; branch; crush; repeat split.
  - crush; repeat split.
  - crush; repeat split.
Qed.

Lemma input_keeps_account_witness :
  step (Click SendBtn) typedTransfers = Some (sendMessage typedTransfers)
  /\ balance (session (sendMessage typedTransfers)) = 5000%Z
  /\ transactions (session (sendMessage typedTransfers)) = [].
Proof.
  assert (S : step (Click SendBtn) typedTransfers
              = Some (sendMessage typedTransfers)) by reflexivity.
  split; [exact S|].
  destruct (input_keeps_account (Click SendBtn) typedTransfers _ S eq_refl)
    as (B & T & _).
  rewrite B, T. split; reflexivity.
Defined.

Ltac provenance :=
  repeat split; intros; try congruence; try assumption;
  try solve [ left; split; [reflexivity | assumption]
            | right; split; [reflexivity | assumption] ].

(** X15. Each cell of the forms changes only through its own input at
    its own stage: the phone on the auth form, the OTP on the verify-otp
    form, the name on the register form, the PIN on the register or the
    login form.  No handler and no answer of the backend writes them. *)
Theorem form_cells_provenance (e : Event) (w w' : World) :
  step e w = Some w' ->
  (phone (session w') <> phone (session w) ->
   e = Change PhoneInput (phone (session w')) /\ stage (session w) = Auth)
  /\ (otp (session w') <> otp (session w) ->
      e = Change OtpInput (otp (session w'))
      /\ stage (session w) = VerifyOtp)
  /\ (name (session w') <> name (session w) ->
      e = Change NameInput (name (session w'))
      /\ stage (session w) = Register)
  /\ (pin (session w') <> pin (session w) ->
      (e = Change PinInput (pin (session w'))
       /\ stage (session w) = Register)
      \/ (e = Change LoginPinInput (pin (session w'))
          /\ stage (session w) = Login)).
Proof.
  open_world w.
  destruct e as [i v|b| |i rs| | |i r]; intros H; turn H.
  - apply andb_true_iff in E. destruct E as [E _].
    apply Stage_eqb_eq in E. cbn [stage session] in E.
    destruct i; cbn [onChange inputStage] in *; crush; provenance.
  - destruct b; cbn [onClick]; crush; branch; crush; provenance.
  - crush; branch; crush; provenance.
  - crush; branch; crush; provenance.
  - crush; provenance.
  - crush; provenance.
  - rename x into p, x0 into k.
    settle_cases p r N0; crush; branch; crush; provenance.
Qed.

Lemma form_cells_provenance_witness :
  step (Change PhoneInput (lit "9876543210")) (boot demoHost)
  = Some (onChange PhoneInput (lit "9876543210") (boot demoHost))
  /\ stage (session (boot demoHost)) = Auth.
Proof.
  assert (S : step (Change PhoneInput (lit "9876543210")) (boot demoHost)
              = Some (onChange PhoneInput (lit "9876543210") (boot demoHost)))
    by reflexivity.
  split; [exact S|].
  destruct (form_cells_provenance _ _ _ S) as (P & _).
  apply P. vm_compute. discriminate.
Defined.

(** X16. A rejected request never advances anything and is never sent
    again: whichever request in flight is rejected, the stage, the user,
    the balance, the transactions and the input stay as they are, no new
    request is issued, and the log either stays or gains the fallback
    entry of the chat. *)
Theorem rejection_frame (i : nat) (w w' : World) :
  step (Settle i ReplyRejected) w = Some w' ->
  stage (session w') = stage (session w)
  /\ user (session w') = user (session w)
  /\ balance (session w') = balance (session w)
  /\ transactions (session w') = transactions (session w)
  /\ inputMessage (session w') = inputMessage (session w)
  /\ issued (effects w') = issued (effects w)
  /\ inflight w' = removeAt i (inflight w)
  /\ (messages (session w') = messages (session w)
      \/ messages (session w') = messages (session w) ++ [errorMsg]).
Proof.
  open_world w. intros H; turn H.
  rename x into p, x0 into k.
  destruct p; cbn [resume] in N0; injection N0 as <-; crush;
    repeat rewrite issued_snoc; cbv beta iota delta [isHttp];
    rewrite ?Nat.add_0_r; repeat split; auto.
Qed.

Lemma rejection_frame_witness :
  step (Settle 0 ReplyRejected) signedIn
  = Some (loadDashboard_settled Rejected (dequeue 0 signedIn))
  /\ transactions (session (loadDashboard_settled Rejected (dequeue 0 signedIn)))
     = transactions (session signedIn)
  /\ inflight (loadDashboard_settled Rejected (dequeue 0 signedIn)) = [].
Proof.
  assert (S : step (Settle 0 ReplyRejected) signedIn
              = Some (loadDashboard_settled Rejected (dequeue 0 signedIn)))
    by (vm_compute; reflexivity).
  split; [exact S|].
  destruct (rejection_frame 0 signedIn _ S) as (_ & _ & _ & T & _ & _ & Q & _).
  split; [exact T|]. rewrite Q. vm_compute. reflexivity.
Defined.

(** ** Logout and late answers *)

(** X17. Logout cancels nothing: the requests in flight stay in flight,
    and a chat answer that arrives after it still lands.  The cleared
    log then holds the assistant's entry alone and the balance is the
    one of the answer, while the stage is [Auth] and no user is set. *)
Theorem answer_after_logout (w : World) (sent : jsstring) (sender : User.t)
    (d : ChatData) :
  inflight (logout w) = inflight w
  /\ effects (logout w) = effects w
  /\ let w' := sendMessage_settled sent sender (Resolved d) (logout w) in
     messages (session w') = [aiMsg (response d)]
     /\ balance (session w') = user_balance d
     /\ stage (session w') = Auth
     /\ user (session w') = None.
Proof.
  open_world w. crush.
  destruct (speechSynthesis h); crush;
    destruct (mentionsTransfers h sent); crush; repeat split.
Qed.

(** X18. The chat request after a login or a registration names the user
    of the response and the session token, and carries the input as it
    was typed, without trimming. *)
Theorem chat_names_logged_in_user (w : World) (u : User.t) :
  blank (inputMessage (session w)) = false ->
  let body :=
    [field "message" (inputMessage (session w)); field "user_id" (User.id u);
     field "session_id" (sessionId (session w))] in
  since (login_settled (Resolved u) w)
        (sendMessage (login_settled (Resolved u) w))
  = [Http (Post (API (host w) ++ lit "/chat") body)]
  /\ since (register_settled (Resolved u) w)
           (sendMessage (register_settled (Resolved u) w))
     = [Http (Post (API (host w) ++ lit "/chat") body)].
Proof.
  intros B body. subst body.
  assert (G : forall w1,
             host w1 = host w -> user (session w1) = Some u ->
             inputMessage (session w1) = inputMessage (session w) ->
             sessionId (session w1) = sessionId (session w) ->
             since w1 (sendMessage w1)
             = [Http (Post (API (host w) ++ lit "/chat")
                  [field "message" (inputMessage (session w));
                   field "user_id" (User.id u);
                   field "session_id" (sessionId (session w))])]).
  { intros w1 Hh Hu Hi Hs. rewrite <- Hi in B.
    destruct (sendMessage_started w1 u B Hu) as (_ & _ & _ & _ & _ & E).
    rewrite Hh, Hi, Hs in E. now apply since_app. }
  split; apply G; open_world w; crush;
    destruct (speechSynthesis h); crush; reflexivity.
Qed.

Lemma chat_names_logged_in_user_witness :
  blank (inputMessage (session typedTransfers)) = false
  /\ since (login_settled (Resolved asha) typedTransfers)
           (sendMessage (login_settled (Resolved asha) typedTransfers))
     = [Http (Post (API (host typedTransfers) ++ lit "/chat")
          [field "message" (inputMessage (session typedTransfers));
           field "user_id" (User.id asha);
           field "session_id" (sessionId (session typedTransfers))])].
Proof.
  assert (B : blank (inputMessage (session typedTransfers)) = false)
    by reflexivity.
  split; [exact B|].
  exact (proj1 (chat_names_logged_in_user typedTransfers asha B)).
Defined.

(** ** The rows of the transaction list *)

Lemma strictEq_eq (a b : jsstring) : strictEq a b = true <-> a = b.
Proof.
  revert b.
  induction a as [|x a IH]; intros [|y b]; simpl;
    try (split; [discriminate | discriminate]); [tauto|].
  rewrite andb_true_iff, N.eqb_eq, IH.
  split; [intros [-> ->]; reflexivity | intros H; injection H; auto].
Qed.

(** X19. The arrow and the sign of a transaction row always agree: a row
    shows the up-right arrow and a minus sign exactly when its type is
    "transfer_out", and the down-left arrow and a plus sign for every
    other type, "transfer_in" or not. *)
Theorem txn_row_direction (t : Txn.t) :
  (Txn.type t = lit "transfer_out" ->
   txnIcon t = ArrowUpRight /\ txnSign t = lit "-")
  /\ (Txn.type t <> lit "transfer_out" ->
      txnIcon t = ArrowDownLeft /\ txnSign t = lit "+")
  /\ (txnIcon t = ArrowUpRight <-> txnSign t = lit "-").
Proof.
  unfold txnIcon, txnSign.
  destruct (strictEq (Txn.type t) (lit "transfer_out")) eqn:E.
  - apply strictEq_eq in E. split; [|split].
    + intros _. split; reflexivity.
    + intros N. now contradiction N.
    + split; reflexivity.
  - assert (N : Txn.type t <> lit "transfer_out").
    { intros X. apply strictEq_eq in X. congruence. }
    split; [|split].
    + intros X. now contradiction N.
    + intros _. split; reflexivity.
    + split; discriminate.
Qed.

Lemma txn_row_direction_witness :
  (txnIcon rent = ArrowUpRight /\ txnSign rent = lit "-")
  /\ (txnIcon salary = ArrowDownLeft /\ txnSign salary = lit "+").
Proof.
  split.
  - apply (proj1 (txn_row_direction rent)). reflexivity.
  - apply (proj1 (proj2 (txn_row_direction salary))).
    vm_compute. discriminate.
Defined.

(** ** The page is never stuck *)

